(** * Trip-planning assistant (app.py): extraction, cache, backend client

    A shallow embedding of the core of [app.py]: the itinerary extractor
    [extract_itinerary_data], the response cache [get_cached_response], the
    backend client [call_deepseek] under its [tenacity.retry] decorator, the
    stream decoder [stream_text] and the calendar renderer [create_ics].

    Text.  A Python [str] is a [string] whose characters are read as the
    code points 0..255 (Latin-1); higher code points are not covered.  On
    this range the white space stripped by [str.strip], the digits
    accepted by [int] and the letters changed by [str.lower] are given
    exactly.

    Exceptions.  Operations that can raise ([int], indexing, unpacking)
    return in the monad [py]; a bare [except: pass] is [except_pass].

    Dicts.  [data["activities"]] and [cached_responses] are finite maps
    ([gmap]); the canned table, whose order matters, is a list of pairs.

    Surroundings.  The network, the clock and the JSON parser are inputs:
    a backend is a function from the rank of a POST to what that POST
    meets, the clock is a number advanced by the waits of the retry
    decorator, and the parser is a parameter of [stream_text].  A line
    of a response body is the UTF-8 form of a text or bytes that are no
    UTF-8.  Dates and time spans are integers (microseconds) with the
    range limits of the date library.  Whether the markup parser of the
    document library accepts the text of a paragraph is a parameter of
    [create_pdf]. *)

From Stdlib Require Import ZArith Ascii String Lia.
From stdpp Require Import base option list strings gmap fin_maps.

Local Open Scope Z_scope.

(** ** Exceptions *)

Inductive exn : Type :=
  | ValueError
  | IndexError
  | RetryError
  | OverflowError
  | UnicodeDecodeError
  | OtherException.

Inductive py (A : Type) : Type :=
  | Ok (a : A)
  | Raise (e : exn).
Arguments Ok {A} a.
Arguments Raise {A} e.

#[global] Instance py_ret : MRet py := fun A a => Ok a.
#[global] Instance py_bind : MBind py := fun A B f m =>
  match m with
  | Ok a => f a
  | Raise e => Raise e
  end.

(** [try: x = body  except: pass], with [x] holding [dflt] beforehand. *)
Definition except_pass {A : Type} (body : py A) (dflt : A) : A :=
  match body with
  | Ok a => a
  | Raise _ => dflt
  end.

(** ** Built-ins on [str] *)

Module Py.

(** [s.startswith(p)] *)
Fixpoint startswith (p s : string) : bool :=
  match p, s with
  | EmptyString, _ => true
  | String a p', String b s' => if Ascii.eqb a b then startswith p' s' else false
  | String _ _, EmptyString => false
  end.

(** [s[n:]] for [n >= 0] *)
Fixpoint drop (n : nat) (s : string) : string :=
  match n, s with
  | O, _ => s
  | S n', String _ s' => drop n' s'
  | S _, EmptyString => EmptyString
  end.

(** [s.partition(sep)] when [sep] occurs: the text before the first
    (leftmost) occurrence and the text after it. *)
Fixpoint cut (sep s : string) {struct s} : option (string * string) :=
  if startswith sep s then Some (EmptyString, drop (String.length sep) s)
  else
    match s with
    | EmptyString => None
    | String c s' =>
        match cut sep s' with
        | Some (a, b) => Some (String c a, b)
        | None => None
        end
    end.

(** [sub in s] *)
Definition contains (sub s : string) : bool :=
  match cut sub s with
  | Some _ => true
  | None => false
  end.

(** [s.split(sep, maxsplit)] with a non-empty [sep] (every separator in
    app.py is a non-empty literal): at most [maxsplit] cuts, left to right. *)
Fixpoint split_upto (maxsplit : nat) (sep s : string) : list string :=
  match maxsplit with
  | O => [s]
  | S n =>
      match cut sep s with
      | Some (a, b) => a :: split_upto n sep b
      | None => [s]
      end
  end.

(** [s.split(sep)]: no limit; a string of length [n] has at most [n]
    occurrences of a non-empty separator. *)
Definition split (sep s : string) : list string :=
  split_upto (String.length s) sep s.

(** [s.replace(old, new)] with a non-empty [old]. *)
Fixpoint replace_upto (count : nat) (old new s : string) : string :=
  match count with
  | O => s
  | S n =>
      match cut old s with
      | Some (a, b) => a +:+ new +:+ replace_upto n old new b
      | None => s
      end
  end.

Definition replace (old new s : string) : string :=
  replace_upto (String.length s) old new s.

(** [c.isspace()] on code points 0..255: TAB, LF, VT, FF, CR, FS, GS, RS,
    US, SPACE, NEL (0x85) and NBSP (0xA0). *)
Definition isspace (c : ascii) : bool :=
  let n := nat_of_ascii c in
  ((9 <=? n) && (n <=? 13))%nat || ((28 <=? n) && (n <=? 32))%nat
  || (n =? 133)%nat || (n =? 160)%nat.

Fixpoint lstrip (s : string) : string :=
  match s with
  | EmptyString => EmptyString
  | String c s' => if isspace c then lstrip s' else s
  end.

Fixpoint rstrip (s : string) : string :=
  match s with
  | EmptyString => EmptyString
  | String c s' =>
      match rstrip s' with
      | EmptyString => if isspace c then EmptyString else String c EmptyString
      | r => String c r
      end
  end.

(** [s.strip()] *)
Definition strip (s : string) : string := rstrip (lstrip s).

(** [l[i]] for [i >= 0] *)
Definition index {A : Type} (l : list A) (i : nat) : py A :=
  match l !! i with
  | Some a => Ok a
  | None => Raise IndexError
  end.

(** [a, b = l] *)
Definition unpack2 {A : Type} (l : list A) : py (A * A) :=
  match l with
  | [a; b] => Ok (a, b)
  | _ => Raise ValueError
  end.

(** [int(s)] in base 10: optional surrounding white space, an optional
    sign, then digits, where single underscores may separate digits.
    (The interpreter's configurable cap on numeral length is a setting
    outside app.py and is not modelled.) *)
Definition isdigit (c : ascii) : bool :=
  let n := nat_of_ascii c in ((48 <=? n) && (n <=? 57))%nat.

Definition digit_value (c : ascii) : Z := Z.of_nat (nat_of_ascii c) - 48.

Inductive numeral_state : Type := AtStart | AfterDigit | AfterUnderscore.

Fixpoint numeral (st : numeral_state) (acc : Z) (s : string) : py Z :=
  match s with
  | EmptyString =>
      match st with
      | AfterDigit => Ok acc
      | _ => Raise ValueError
      end
  | String c s' =>
      if isdigit c then numeral AfterDigit (10 * acc + digit_value c) s'
      else if Ascii.eqb c "_" then
        match st with
        | AfterDigit => numeral AfterUnderscore acc s'
        | _ => Raise ValueError
        end
      else Raise ValueError
  end.

Definition int (s : string) : py Z :=
  match strip s with
  | String "+" r => numeral AtStart 0 r
  | String "-" r => n ← numeral AtStart 0 r; Ok (- n)
  | t => numeral AtStart 0 t
  end.

(** [s.lower()] on code points 0..255: A-Z, and 0xC0-0xDE except 0xD7. *)
Definition lower_char (c : ascii) : ascii :=
  let n := nat_of_ascii c in
  if ((65 <=? n) && (n <=? 90))%nat
     || ((192 <=? n) && (n <=? 222) && negb (n =? 215))%nat
  then ascii_of_nat (n + 32) else c.

Fixpoint lower (s : string) : string :=
  match s with
  | EmptyString => EmptyString
  | String c s' => String (lower_char c) (lower s')
  end.

(** [s.split('\n')] *)
Definition LF : string := String "010" EmptyString.

Definition split_lines (s : string) : list string := split LF s.

End Py.

(** ** Itinerary extractor: [extract_itinerary_data] *)

(** One entry of a day's list: the dict built at the end of the loop body. *)
Record activity : Type := {
  name : string;
  hour : Z;
  duration : Z;
  description : string;
  location : string
}.

(** The dict [data]: the key "destination" is absent until a line sets it;
    "activities" maps a day number to its list. *)
Record itinerary : Type := {
  destination : option string;
  activities : gmap Z (list activity)
}.

(** The loop variables that survive an iteration. *)
Record loop_state : Type := {
  current_day : Z;
  data : itinerary
}.

Definition initial_state : loop_state :=
  {| current_day := 0; data := {| destination := None; activities := ∅ |} |}.

(** [if "Itinerary for" in line: ...] *)
Definition destination_step (line : string) (d : itinerary) : py itinerary :=
  if Py.contains "Itinerary for" line then
    let parts := Py.split "Itinerary for" line in
    if (1 <? length parts)%nat then
      p ← Py.index parts 1;
      Ok {| destination := Some (Py.strip p); activities := activities d |}
    else Ok d
  else Ok d.

Definition is_day_heading (line : string) : bool :=
  Py.startswith "## Day" line || Py.startswith "# Day" line.

(** [int(line.split("Day")[1].split(":")[0].strip())] *)
Definition day_number (line : string) : py Z :=
  after ← Py.index (Py.split "Day" line) 1;
  before ← Py.index (Py.split ":" after) 0;
  Py.int (Py.strip before).

(** [if current_day not in data["activities"]: data["activities"][current_day] = []] *)
Definition register_day (n : Z) (acts : gmap Z (list activity)) : gmap Z (list activity) :=
  match acts !! n with
  | Some _ => acts
  | None => <[n := []]> acts
  end.

(** The heading block; its [try] leaves both variables as they were when
    [int] (or an index) raises. *)
Definition day_step (line : string) (st : loop_state) : loop_state :=
  if is_day_heading line then
    except_pass
      (n ← day_number line;
       Ok {| current_day := n;
             data := {| destination := destination (data st);
                        activities := register_day n (activities (data st)) |} |})
      st
  else st.

(** The body of the inner [try], returning the new value of [hour]. *)
Definition parse_hour (hour0 : Z) (time_part : string) : py Z :=
  if Py.contains "AM" time_part || Py.contains "PM" time_part then
    let time_str := Py.strip time_part in
    if Py.contains "AM" time_str then
      before ← Py.index (Py.split "AM" time_str) 0;
      let hour_str := Py.strip before in
      h ← Py.index (Py.split ":" hour_str) 0;
      Py.int h
    else if Py.contains "PM" time_str then
      before ← Py.index (Py.split "PM" time_str) 0;
      let hour_str := Py.strip before in
      h ← Py.index (Py.split ":" hour_str) 0;
      n ← Py.int h;
      Ok (n + 12)
    else Ok hour0
  else Ok hour0.

(** [hour = 9; try: ... except: pass] *)
Definition hour_of (time_part : string) : Z :=
  except_pass (parse_hour 9 time_part) 9.

(** [data["activities"].setdefault(day, []).append(a)] *)
Definition append_activity (day : Z) (a : activity)
    (acts : gmap Z (list activity)) : gmap Z (list activity) :=
  <[day := default [] (acts !! day) ++ [a]]> acts.

Definition is_bullet (line : string) : bool :=
  Py.startswith "- " line || Py.startswith "* " line.

Definition make_activity (time_part descr : string) (d : itinerary) : activity :=
  {| name := Py.strip descr;
     hour := hour_of time_part;
     duration := 2;
     description := Py.strip descr;
     location := default "" (destination d) |}.

(** The activity block. *)
Definition activity_step (line : string) (st : loop_state) : py loop_state :=
  if is_bullet line && (0 <? current_day st) then
    let activity_text := Py.strip (Py.drop 2 line) in
    if Py.contains ":" activity_text then
      '(time_part, descr) ← Py.unpack2 (Py.split_upto 1 ":" activity_text);
      Ok {| current_day := current_day st;
            data := {| destination := destination (data st);
                       activities :=
                         append_activity (current_day st)
                           (make_activity time_part descr (data st))
                           (activities (data st)) |} |}
    else Ok st
  else Ok st.

(** One iteration of [for line in lines]. *)
Definition process_line (st : loop_state) (line : string) : py loop_state :=
  d ← destination_step line (data st);
  activity_step line (day_step line {| current_day := current_day st; data := d |}).

Fixpoint run_lines (st : loop_state) (lines : list string) : py loop_state :=
  match lines with
  | [] => Ok st
  | line :: rest => st' ← process_line st line; run_lines st' rest
  end.

Definition extract_itinerary_data (markdown_text : string) : py itinerary :=
  st ← run_lines initial_state (Py.split_lines markdown_text);
  Ok (data st).

(** ** Session state and response cache *)

(** A conversation turn; [role] is what [m.get("role")] returns. *)
Record message : Type := {
  role : option string;
  content : string
}.

(** The fields of [st.session_state] used by the core. *)
Record session_state : Type := {
  messages : list message;
  itinerary_generated : bool;
  api_calls : Z;
  last_query_time : option Z;
  use_cached_response : bool;
  cached_responses : gmap string string
}.

(** The canned answers, in the order of the dict literal. *)
Definition COMMON_QUERIES : list (string * string) :=
  [ ("recommend restaurants",
     "Here are some top restaurant recommendations for your destination:

1. **Local Cuisine** - Always try the regional specialties
2. **High-rated places** - Check TripAdvisor or Google reviews
3. **Street Food** - Often the most authentic experience
4. **Fine Dining** - Make reservations in advance

Would you like me to recommend specific restaurants based on your destination?");
    ("what should i pack",
     "**Essential Packing List:**

- Travel documents (passport, ID, tickets)
- Appropriate clothing for the climate
- Comfortable walking shoes
- Toiletries and medications
- Phone, charger, and adapter
- Copy of your itinerary
- Travel insurance information

For your specific destination, also consider any special items based on planned activities.");
    ("best time to visit",
     "The best time to visit depends on your destination. Generally:

- Consider shoulder seasons (spring/fall) for better prices and fewer crowds
- Check seasonal weather patterns for your specific location
- Be aware of local holidays or festivals that might affect your visit

Tell me your specific destination for more tailored advice.");
    ("transportation options",
     "**Common Transportation Options:**

- Public transit (subway, bus, tram)
- Taxis and rideshare apps
- Rental cars
- Bicycles
- Walking (for smaller cities)
- Tours and shuttles

The best option depends on your destination, budget, and comfort level. What's your destination?") ].

(** [for key, response in table: if key in query_lower: return response] *)
Fixpoint first_common (query_lower : string) (table : list (string * string)) : option string :=
  match table with
  | [] => None
  | (key, response) :: rest =>
      if Py.contains key query_lower then Some response
      else first_common query_lower rest
  end.

Definition get_cached_response (ss : session_state) (query : string) : option string :=
  match cached_responses ss !! query with
  | Some response => Some response
  | None => first_common (Py.lower query) COMMON_QUERIES
  end.

(** [st.session_state.cached_responses[prompt] = response], the statement
    that follows both a cache hit and a streamed reply. *)
Definition store (prompt response : string) (ss : session_state) : session_state :=
  {| messages := messages ss;
     itinerary_generated := itinerary_generated ss;
     api_calls := api_calls ss;
     last_query_time := last_query_time ss;
     use_cached_response := use_cached_response ss;
     cached_responses := <[prompt := response]> (cached_responses ss) |}.

(** ** Backend client: [call_deepseek] *)

Definition system_prompt : string :=
  "You are a travel planning expert EXCLUSIVELY focused on creating travel itineraries.
IMPORTANT: You MUST ONLY respond to queries about travel planning, itineraries, or destination information.
For ANY other topics (including technology, news, general knowledge, or non-travel questions):
1. DO NOT provide any information
2. POLITELY redirect the user to ask about travel planning
3. REFUSE to engage with the query
4. EXPLAIN that you are specifically designed only for travel planning

For travel queries:
- Extract destination, days, and preferences from user input
- Ask follow-up questions if needed
- Generate detailed itineraries in markdown with daily activities, dining, and tips
- Be concise and friendly

Remember: You are STRICTLY LIMITED to travel planning assistance ONLY.".

Definition system_message : message :=
  {| role := Some "system"; content := system_prompt |}.

Definition not_system (m : message) : Prop := role m ≠ Some "system".

#[global] Instance not_system_dec (m : message) : Decision (not_system m).
Proof. unfold not_system. apply _. Defined.

(** [messages[-4:] if len(messages) > 4 else messages] *)
Definition relevant_messages (msgs : list message) : list message :=
  if (4 <? length msgs)%nat then drop (length msgs - 4) msgs else msgs.

(** The list [messages_to_send] once the [extend] has run. *)
Definition messages_to_send (msgs : list message) : list message :=
  [system_message] ++ filter not_system (relevant_messages msgs).

(** The model choice; both branches name the same model. *)
Definition choose_model (msgs : list message) (ss : session_state) : string :=
  if (2 <? length msgs)%nat && itinerary_generated ss then
    match last msgs with
    | Some m =>
        if negb (existsb (fun kw => Py.contains kw (Py.lower (content m)))
                   ["itinerary"; "plan"; "schedule"])
        then "deepseek-chat" else "deepseek-chat"
    | None => "deepseek-chat"
    end
  else "deepseek-chat".

(** The JSON body (the float [temperature] is left out). *)
Record request : Type := {
  model : string;
  request_messages : list message;
  request_stream : bool;
  max_tokens : Z
}.

(** A line of a response body as [iter_lines] gives it, a [bytes]: the
    UTF-8 form of a text, or bytes that are no UTF-8. *)
Inductive body_line : Type :=
  | Utf8 (text : string)
  | NotUtf8.

(** The truth value of the bytes: only the empty line is falsy. *)
Definition nonempty (line : body_line) : bool :=
  match line with
  | Utf8 EmptyString => false
  | _ => true
  end.

(** [line.decode('utf-8')] *)
Definition decode (line : body_line) : py string :=
  match line with
  | Utf8 text => Ok text
  | NotUtf8 => Raise UnicodeDecodeError
  end.

Record response : Type := {
  status_code : Z;
  iter_lines : list body_line
}.

(** What [requests.post] does: it returns a response, raises a
    [RequestException] (connection error, timeout), or raises something
    else. *)
Inductive post_result : Type :=
  | Responds (r : response)
  | ConnectionError
  | UnexpectedError.

(** The surroundings of a call: the session, a clock in the time unit of
    [wait_fixed], the requests posted so far (oldest first) and what the
    n-th POST of the run meets. *)
Record world : Type := {
  session : session_state;
  clock : Z;
  sent : list request;
  network : nat -> post_result
}.

(** [response.raise_for_status()] raises [HTTPError], a
    [RequestException], on a 4xx or 5xx status. *)
Definition raises_for_status (r : response) : bool :=
  (400 <=? status_code r) && (status_code r <? 600).

Definition count_call (w : world) (rq : request) : world :=
  {| session :=
       {| messages := messages (session w);
          itinerary_generated := itinerary_generated (session w);
          api_calls := api_calls (session w) + 1;
          last_query_time := Some (clock w);
          use_cached_response := use_cached_response (session w);
          cached_responses := cached_responses (session w) |};
     clock := clock w;
     sent := sent w ++ [rq];
     network := network w |}.

(** The undecorated function: one POST; [except RequestException] turns
    a transport failure into the return value [None]. *)
Definition call_deepseek_once (msgs : list message) (stream : bool) (w : world)
  : py (option response) * world :=
  let rq := {| model := choose_model msgs (session w);
               request_messages := messages_to_send msgs;
               request_stream := stream;
               max_tokens := 1500 |} in
  let w' := count_call w rq in
  match network w (length (sent w)) with
  | Responds r => if raises_for_status r then (Ok None, w') else (Ok (Some r), w')
  | ConnectionError => (Ok None, w')
  | UnexpectedError => (Raise OtherException, w')
  end.

Definition sleep (seconds : Z) (w : world) : world :=
  {| session := session w; clock := clock w + seconds;
     sent := sent w; network := network w |}.

(** [tenacity.retry(stop=stop_after_attempt(n), wait=wait_fixed(wait))]:
    the function is called again only when it raised; a returned value,
    whatever it is, ends the loop; after the n-th raise the decorator
    raises [RetryError]. *)
Fixpoint retry {A : Type} (attempts : nat) (wait : Z)
    (fn : world -> py A * world) (w : world) : py A * world :=
  match attempts with
  | O => (Raise RetryError, w)
  | S n =>
      match fn w with
      | (Ok a, w') => (Ok a, w')
      | (Raise e, w') =>
          match n with
          | O => (Raise RetryError, w')
          | S _ => retry n wait fn (sleep wait w')
          end
      end
  end.

(** [@retry(stop=stop_after_attempt(3), wait=wait_fixed(2))] *)
Definition call_deepseek (msgs : list message) (w : world) : py (option response) * world :=
  retry 3 2 (call_deepseek_once msgs true) w.

(** ** Stream decoder: [stream_text] *)

(** The value of [data] in the loop body. *)
Definition event_data (decoded_line : string) : string :=
  Py.replace "data: " "" decoded_line.

(** [yield chunk] before the rest of a run. *)
Definition yield (chunk : string) (run : list string * option exn)
  : list string * option exn :=
  (chunk :: run.1, run.2).

Section Stream.

(** [json.loads(data)] followed by the path choices, 0, delta and
    [.get] of content: it raises on malformed JSON or a missing key; a
    falsy content is the empty string. *)
Variable delta_content : string -> py string.

(** A run of the generator on the lines of the response: the fragments
    yielded, in order, and the exception that ends the run, if one does.
    The decoding stands before the [try] and its exception leaves the
    generator. *)
Fixpoint stream_text (lines : list body_line) : list string * option exn :=
  match lines with
  | [] => ([], None)
  | line :: rest =>
      if nonempty line then
        match decode line with
        | Raise e => ([], Some e)
        | Ok decoded_line =>
            if Py.startswith "data: " decoded_line then
              let data := event_data decoded_line in
              if String.eqb data "[DONE]" then ([], None)
              else
                match delta_content data with
                | Ok chunk =>
                    if String.eqb chunk "" then stream_text rest
                    else yield chunk (stream_text rest)
                | Raise _ => stream_text rest
                end
            else stream_text rest
        end
      else stream_text rest
  end.

End Stream.

(** ** Calendar renderer: [create_ics] *)

(** A [datetime.date] (proleptic ordinal) or a [datetime.datetime]
    (microseconds since the start of ordinal 0). *)
Inductive moment : Type :=
  | OnDate (ordinal : Z)
  | AtTime (micros : Z).

Definition micros_per_hour : Z := 3600000000.
Definition micros_per_day : Z := 24 * micros_per_hour.

(** The limits of the date library: a time span counts at most
    [max_span_days] whole days either way, and a date lies between the
    ordinals 1 (0001-01-01) and [max_ordinal] (9999-12-31). *)
Definition max_span_days : Z := 999999999.
Definition max_ordinal : Z := 3652059.

Definition span_in_range (delta : Z) : bool :=
  (- max_span_days <=? delta / micros_per_day)
  && (delta / micros_per_day <=? max_span_days).

Definition ordinal_in_range (ordinal : Z) : bool :=
  (1 <=? ordinal) && (ordinal <=? max_ordinal).

(** The microseconds of [days] days and [hours] hours. *)
Definition span (days hours : Z) : Z :=
  days * micros_per_day + hours * micros_per_hour.

(** [timedelta(days=d, hours=h)], in microseconds; the constructor
    raises on a span beyond the limit. *)
Definition timedelta (days hours : Z) : py Z :=
  if span_in_range (span days hours) then Ok (span days hours)
  else Raise OverflowError.

(** Where [start + delta] falls: a date moves by the whole days of the
    delta. *)
Definition shift (start : moment) (delta : Z) : moment :=
  match start with
  | OnDate o => OnDate (o + delta / micros_per_day)
  | AtTime t => AtTime (t + delta)
  end.

Definition moment_in_range (m : moment) : bool :=
  match m with
  | OnDate o => ordinal_in_range o
  | AtTime t => ordinal_in_range (t / micros_per_day)
  end.

(** [start + delta]; the addition raises when the result is no date of
    the library. *)
Definition moment_add (start : moment) (delta : Z) : py moment :=
  if moment_in_range (shift start delta) then Ok (shift start delta)
  else Raise OverflowError.

Record event : Type := {
  event_name : string;
  event_begin : moment;
  event_duration : Z;
  event_description : string;
  event_location : string
}.

(** The keys of the session's [itinerary_data] read by [create_ics]. *)
Record itinerary_data : Type := {
  start_date : option moment;
  extracted : itinerary
}.

(** The body of the inner loop, up to [cal.events.add(event)]. *)
Definition make_event (start : moment) (day_num : Z) (a : activity) : py event :=
  delta ← timedelta (day_num - 1) (hour a);
  starts ← moment_add start delta;
  lasts ← timedelta 0 (duration a);
  Ok {| event_name := name a;
        event_begin := starts;
        event_duration := lasts;
        event_description := description a;
        event_location := location a |}.

(** A [for] loop whose body returns the items it adds: the items of all
    rounds, or the first exception a round raises. *)
Fixpoint for_each {A B : Type} (body : A -> py (list B)) (items : list A)
  : py (list B) :=
  match items with
  | [] => Ok []
  | x :: rest =>
      added ← body x;
      later ← for_each body rest;
      Ok (added ++ later)
  end.

(** The events of the calendar returned, or the exception raised before
    it is complete; [now] is the reading of [datetime.now()].  The
    calendar keeps its events in a set, so their order carries no
    meaning. *)
Definition create_ics (now : Z) (d : itinerary_data) : py (list event) :=
  let start := default (AtTime now) (start_date d) in
  for_each
    (fun '(day_num, acts) =>
       for_each (fun a => ev ← make_event start day_num a; Ok [ev]) acts)
    (map_to_list (activities (extracted d))).

(** ** Document renderer: [create_pdf] *)

Inductive paragraph_style : Type :=
  | title_style
  | subtitle_style
  | body_style.

(** The members of the list [elements]. *)
Inductive flowable : Type :=
  | Paragraph (text : string) (style : paragraph_style)
  | Spacer (width height : Z).

Section Pdf.

(** The glyph U+2022 that opens a bulleted paragraph; it lies beyond the
    code points covered and is left as a parameter. *)
Variable bullet_glyph : string.

(** Whether the markup parser run by the constructor of a paragraph
    accepts a text; the markup language belongs to the document library
    and is left as a parameter. *)
Variable markup_ok : string -> bool.

(** [Paragraph(text, style)]: the constructor parses the text as markup
    and raises on a text the parser rejects. *)
Definition new_paragraph (text : string) (style : paragraph_style) : py flowable :=
  if markup_ok text then Ok (Paragraph text style) else Raise ValueError.

(** The body of [for line in lines]: what it appends to [elements]. *)
Definition pdf_line (raw : string) : py (list flowable) :=
  let line := Py.strip raw in
  if String.eqb line EmptyString then Ok []
  else if Py.startswith "# " line then
    p ← new_paragraph (Py.drop 2 line) title_style; Ok [p]
  else if Py.startswith "## " line then
    p ← new_paragraph (Py.drop 3 line) subtitle_style; Ok [p]
  else if Py.startswith "* " line || Py.startswith "- " line then
    p ← new_paragraph (bullet_glyph +:+ " " +:+ Py.drop 2 line) body_style; Ok [p]
  else p ← new_paragraph line body_style; Ok [p].

(** The list [elements] handed to [doc.build], or the exception raised
    before the list is complete. *)
Definition create_pdf (itinerary_text dest : string) : py (list flowable) :=
  title ← new_paragraph ("Travel Itinerary: " +:+ dest) title_style;
  body ← for_each pdf_line (Py.split Py.LF itinerary_text);
  Ok ([title; Spacer 1 20] ++ body).

End Pdf.

(** ** The script around the core: one chat turn and the export section *)

(** The dict literal with the keys "role" and "content". *)
Definition turn_of (r c : string) : message := {| role := Some r; content := c |}.

(** The session fields beside those of [session_state]: the text of the
    detected itinerary and the dict [itinerary_data], whose key
    "generated" is [generated]. *)
Record app_state : Type := {
  surroundings : world;
  full_itinerary_text : string;
  stored : itinerary_data;
  generated : bool
}.

(** The session as the initialisation block leaves it. *)
Definition initial_app (net : nat -> post_result) : app_state :=
  {| surroundings :=
       {| session :=
            {| messages := [];
               itinerary_generated := false;
               api_calls := 0;
               last_query_time := None;
               use_cached_response := false;
               cached_responses := ∅ |};
          clock := 0; sent := []; network := net |};
     full_itinerary_text := EmptyString;
     stored := {| start_date := None;
                  extracted := {| destination := Some EmptyString;
                                  activities := ∅ |} |};
     generated := false |}.

(** [st.session_state.messages.append(m)] *)
Definition append_message (m : message) (ss : session_state) : session_state :=
  {| messages := messages ss ++ [m];
     itinerary_generated := itinerary_generated ss;
     api_calls := api_calls ss;
     last_query_time := last_query_time ss;
     use_cached_response := use_cached_response ss;
     cached_responses := cached_responses ss |}.

(** [st.session_state.messages.pop()] on a non-empty list *)
Definition pop_message (ss : session_state) : session_state :=
  {| messages := removelast (messages ss);
     itinerary_generated := itinerary_generated ss;
     api_calls := api_calls ss;
     last_query_time := last_query_time ss;
     use_cached_response := use_cached_response ss;
     cached_responses := cached_responses ss |}.

(** [st.session_state.itinerary_generated = True] *)
Definition mark_generated (ss : session_state) : session_state :=
  {| messages := messages ss;
     itinerary_generated := true;
     api_calls := api_calls ss;
     last_query_time := last_query_time ss;
     use_cached_response := use_cached_response ss;
     cached_responses := cached_responses ss |}.

Definition with_session (ss : session_state) (w : world) : world :=
  {| session := ss; clock := clock w; sent := sent w; network := network w |}.

(** [itinerary_data.update(extracted_data)]: "activities" is always a
    key of the extracted dict, "destination" only when a line set it. *)
Definition update (d : itinerary_data) (ex : itinerary) : itinerary_data :=
  {| start_date := start_date d;
     extracted :=
       {| destination :=
            match destination ex with
            | Some dest => Some dest
            | None => destination (extracted d)
            end;
          activities := activities ex |} |}.

(** Truth values of a string-or-missing and of a dict. *)
Definition truthy_text (s : option string) : bool :=
  match s with
  | Some (String _ _) => true
  | _ => false
  end.

Definition truthy_dict (m : gmap Z (list activity)) : bool :=
  negb (bool_decide (m = ∅)).

Definition day_markers : list string :=
  ["Day 1:"; "Day 1 -"; "## Day 1"; "# Day 1"].

(** The two nested conditions that decide whether a reply is taken as
    the itinerary. *)
Definition mentions_itinerary (full_response : string) : bool :=
  Py.contains "itinerary" (Py.lower full_response)
  || Py.contains "day" (Py.lower full_response).

Definition has_day_marker (full_response : string) : bool :=
  existsb (fun day_marker => Py.contains day_marker full_response) day_markers.

(** How one run of the chat block ends. *)
Inductive turn_outcome : Type :=
  | NoPrompt
  | FromCache (reply : string)
  | FromBackend (reply : string)
  | BackendFailed
  | Crashed (e : exn).

(** The date input of the export section: it is shown, and its value
    kept, only while no start date is stored. *)
Definition pick_start_date (picked : Z) (a : app_state) : app_state :=
  if itinerary_generated (session (surroundings a)) then
    match start_date (stored a) with
    | Some _ => a
    | None =>
        {| surroundings := surroundings a;
           full_itinerary_text := full_itinerary_text a;
           stored := {| start_date := Some (OnDate picked);
                        extracted := extracted (stored a) |};
           generated := generated a |}
    end
  else a.

(** The first statement under the [try] of the calendar button: the
    days are extracted from the text when none are stored.  The update
    of the session dict stays when a later statement raises. *)
Definition fill_activities (a : app_state) : py app_state :=
  if truthy_dict (activities (extracted (stored a))) then Ok a
  else
    structured_data ← extract_itinerary_data (full_itinerary_text a);
    Ok {| surroundings := surroundings a;
          full_itinerary_text := full_itinerary_text a;
          stored := update (stored a) structured_data;
          generated := generated a |}.

(** The calendar button: the events of the file offered for download,
    or nothing when the button reports an error, be it the missing
    start date or an exception caught under its [try]. *)
Definition add_to_calendar (now : Z) (a : app_state) : option (list event) * app_state :=
  if itinerary_generated (session (surroundings a)) then
    match start_date (stored a) with
    | Some _ =>
        match fill_activities a with
        | Ok a' =>
            match create_ics now (stored a') with
            | Ok events => (Some events, a')
            | Raise _ => (None, a')
            end
        | Raise _ => (None, a)
        end
    | None => (None, a)
    end
  else (None, a).


(** The checkbox of the sidebar, bound to the session key
    "use_cached_response". *)
Definition set_use_cached (ticked : bool) (a : app_state) : app_state :=
  let w := surroundings a in
  {| surroundings :=
       with_session
         {| messages := messages (session w);
            itinerary_generated := itinerary_generated (session w);
            api_calls := api_calls (session w);
            last_query_time := last_query_time (session w);
            use_cached_response := ticked;
            cached_responses := cached_responses (session w) |} w;
     full_itinerary_text := full_itinerary_text a;
     stored := stored a;
     generated := generated a |}.

Section Script.

Variable delta_content : string -> py string.

(** The block under "Check if itinerary has been generated", run on the
    session in which the reply is already recorded. *)
Definition detect_itinerary (full_response : string) (a : app_state) : turn_outcome * app_state :=
  let w := surroundings a in
  if mentions_itinerary full_response && negb (itinerary_generated (session w)) then
    if has_day_marker full_response then
      let w' := with_session (mark_generated (session w)) w in
      match extract_itinerary_data full_response with
      | Ok extracted_data =>
          if truthy_text (destination extracted_data)
             || truthy_dict (activities extracted_data)
          then (FromBackend full_response,
                {| surroundings := w';
                   full_itinerary_text := full_response;
                   stored := update (stored a) extracted_data;
                   generated := true |})
          else (FromBackend full_response,
                {| surroundings := w';
                   full_itinerary_text := full_response;
                   stored := stored a;
                   generated := generated a |})
      | Raise e =>
          (Crashed e,
           {| surroundings := w';
              full_itinerary_text := full_response;
              stored := stored a;
              generated := generated a |})
      end
    else (FromBackend full_response, a)
  else (FromBackend full_response, a).

(** The block [if prompt := st.chat_input(...)]. *)
Definition handle_prompt (prompt : string) (a : app_state) : turn_outcome * app_state :=
  if String.eqb prompt EmptyString then (NoPrompt, a)
  else
    let w0 := surroundings a in
    let ss1 := append_message (turn_of "user" prompt) (session w0) in
    let cached_response :=
      if use_cached_response ss1 then get_cached_response ss1 prompt else None in
    if truthy_text cached_response then
      let reply := default EmptyString cached_response in
      let ss2 := store prompt reply (append_message (turn_of "assistant" reply) ss1) in
      (FromCache reply,
       {| surroundings := with_session ss2 w0;
          full_itinerary_text := full_itinerary_text a;
          stored := stored a;
          generated := generated a |})
    else
      match call_deepseek (messages ss1) (with_session ss1 w0) with
      | (Raise e, w1) =>
          (Crashed e,
           {| surroundings := w1;
              full_itinerary_text := full_itinerary_text a;
              stored := stored a;
              generated := generated a |})
      | (Ok None, w1) =>
          (BackendFailed,
           {| surroundings := with_session (pop_message (session w1)) w1;
              full_itinerary_text := full_itinerary_text a;
              stored := stored a;
              generated := generated a |})
      | (Ok (Some response), w1) =>
          let text_generator := stream_text delta_content (iter_lines response) in
          match text_generator.2 with
          | Some e =>
              (Crashed e,
               {| surroundings := w1;
                  full_itinerary_text := full_itinerary_text a;
                  stored := stored a;
                  generated := generated a |})
          | None =>
              let full_response := String.concat EmptyString text_generator.1 in
              let ss3 :=
                store prompt full_response
                  (append_message (turn_of "assistant" full_response) (session w1)) in
              detect_itinerary full_response
                {| surroundings := with_session ss3 w1;
                   full_itinerary_text := full_itinerary_text a;
                   stored := stored a;
                   generated := generated a |}
          end
      end.

(** The blocks of the script that change the session, as steps: the
    checkbox of the sidebar with the value the user gives it, the chat
    block with the prompt entered, the date input of the export section
    with the value it returns, the calendar button.  A run of the
    script executes the checkbox and the date input, then at most one of
    the other two; a session is any sequence of these steps. *)
Inductive action : Type :=
  | UseCached (ticked : bool)
  | Enter (prompt : string)
  | PickDate (picked : Z)
  | AddToCalendar (now : Z).

Definition perform (x : action) (a : app_state) : app_state :=
  match x with
  | UseCached ticked => set_use_cached ticked a
  | Enter prompt => (handle_prompt prompt a).2
  | PickDate picked => pick_start_date picked a
  | AddToCalendar now => (add_to_calendar now a).2
  end.

(** A session: the actions one after the other. *)
Fixpoint run_script (script : list action) (a : app_state) : app_state :=
  match script with
  | [] => a
  | x :: rest => run_script rest (perform x a)
  end.

End Script.

(** ** Vocabulary and sample inputs of the statements *)

(** A day number is introduced by a heading line among [lines]. *)
Definition introduced (lines : list string) (k : Z) : Prop :=
  exists h, h ∈ lines /\ is_day_heading h = true /\ day_number h = Ok k.

Definition paris_text : string :=
  "Itinerary for Paris
## Day 1: Arrival
- 9:00 AM: Visit Eiffel Tower
- 7:00 PM: Dinner at Le Jules Verne
## Day 2: Exploration
- 10:00 AM: Louvre Museum".

(** An activity dict with the fixed duration, whose name and description
    coincide, as the extractor builds them. *)
Definition act (nm : string) (h : Z) (loc : string) : activity :=
  {| name := nm; hour := h; duration := 2; description := nm; location := loc |}.

Definition one_day (line : string) : string :=
  "## Day 1: Arrival" +:+ Py.LF +:+ line.

(** What the loop maintains once the lines [seen] are processed: the
    current day, when positive, was introduced by a heading among them
    and is a key; every key was introduced by such a heading, and a key
    that holds an activity is at least 1. *)
Definition days_invariant (seen : list string) (st : loop_state) : Prop :=
  (0 < current_day st ->
     introduced seen (current_day st)
     /\ is_Some (activities (data st) !! current_day st))
  /\ (forall k acts, activities (data st) !! k = Some acts ->
        introduced seen k /\ (acts <> [] -> 1 <= k)).

(** The context as the specification words it: the last four of the
    turns that are left once the system turns are filtered out. *)
Definition messages_to_send_as_claimed (msgs : list message) : list message :=
  let kept := filter not_system msgs in
  [system_message] ++ drop (length kept - 4) kept.

Definition turn (r c : string) : message := {| role := Some r; content := c |}.

(** A history whose last four turns include a system turn. *)
Definition history_with_system_turn : list message :=
  [ turn "user" "a"; turn "assistant" "b"; turn "user" "c";
    turn "assistant" "d"; turn "system" "s"; turn "user" "e" ].

Definition fresh_session : session_state :=
  {| messages := [];
     itinerary_generated := false;
     api_calls := 0;
     last_query_time := None;
     use_cached_response := false;
     cached_responses := ∅ |}.

Definition fresh_world (net : nat -> post_result) : world :=
  {| session := fresh_session; clock := 0; sent := []; network := net |}.

Definition good_response : response :=
  {| status_code := 200; iter_lines := [Utf8 "data: [DONE]"] |}.

Definition unavailable_response : response :=
  {| status_code := 503; iter_lines := [] |}.

(** A backend whose first two POSTs fail as [first] and whose later ones
    succeed. *)
Definition fails_twice (first : post_result) (n : nat) : post_result :=
  if (n <? 2)%nat then first else Responds good_response.

(** The number of activities of an itinerary, over all its days. *)
Definition activity_count (it : itinerary) : nat :=
  sum_list (map (fun p : Z * list activity => length p.2) (map_to_list (activities it))).

(** The event of an activity when nothing lies beyond the limits of the
    date library. *)
Definition event_at (start : moment) (day_num : Z) (a : activity) : event :=
  {| event_name := name a;
     event_begin := shift start (span (day_num - 1) (hour a));
     event_duration := span 0 (duration a);
     event_description := description a;
     event_location := location a |}.

(** The span to the activity, the date it falls on and its length all
    lie within the limits of the date library. *)
Definition event_in_range (start : moment) (day_num : Z) (a : activity) : bool :=
  span_in_range (span (day_num - 1) (hour a))
  && moment_in_range (shift start (span (day_num - 1) (hour a)))
  && span_in_range (span 0 (duration a)).

(** One event per activity of the days, day after day. *)
Definition events_of (start : moment) (days : gmap Z (list activity)) : list event :=
  flat_map (fun '(day_num, acts) => map (event_at start day_num) acts)
    (map_to_list days).

(** Every event of the days lies within the limits. *)
Definition all_in_range (start : moment) (days : gmap Z (list activity)) : bool :=
  forallb (fun '(day_num, acts) => forallb (event_in_range start day_num) acts)
    (map_to_list days).

(** The days the calendar button works on: those stored, or those of the
    text when none are stored. *)
Definition calendar_days (a : app_state) : gmap Z (list activity) :=
  if truthy_dict (activities (extracted (stored a))) then
    activities (extracted (stored a))
  else
    match extract_itinerary_data (full_itinerary_text a) with
    | Ok ex => activities ex
    | Raise _ => ∅
    end.

(** A clock reading on 2026-11-03, at noon. *)
Definition sample_now : Z := 739923 * micros_per_day + 12 * micros_per_hour.

(** An extracted itinerary for which no start date was supplied. *)
Definition undated_walk : itinerary_data :=
  {| start_date := None;
     extracted := {| destination := None;
                     activities := {[ 2 := [act "Walk" 9 EmptyString] ]} |} |}.

(** The time portion of a bullet line: the text of [line[2:].strip()]
    before its first colon. *)
Definition time_part_of (line : string) : option string :=
  match Py.cut ":" (Py.strip (Py.drop 2 line)) with
  | Some (time_part, _) => Some time_part
  | None => None
  end.

(** The integer read before [marker] in a stripped time portion. *)
Definition hour_before (marker time_str : string) : py Z :=
  before ← Py.index (Py.split marker time_str) 0;
  h ← Py.index (Py.split ":" (Py.strip before)) 0;
  Py.int h.

(** Every activity stored so far stems from a bullet line among [seen],
    with the hour read from that line's time portion. *)
Definition hours_invariant (seen : list string) (st : loop_state) : Prop :=
  forall k acts a, activities (data st) !! k = Some acts -> a ∈ acts ->
    exists line time_part,
      line ∈ seen /\ is_bullet line = true
      /\ time_part_of line = Some time_part
      /\ hour a = hour_of time_part /\ duration a = 2.

(** The body posted at every attempt of one call. *)
Definition request_for (msgs : list message) : request :=
  {| model := "deepseek-chat";
     request_messages := messages_to_send msgs;
     request_stream := true;
     max_tokens := 1500 |}.

(** What the undecorated function makes of what its POST meets. *)
Definition attempt_result (met : post_result) : py (option response) :=
  match met with
  | Responds r => if raises_for_status r then Ok None else Ok (Some r)
  | ConnectionError => Ok None
  | UnexpectedError => Raise OtherException
  end.

(** An event line that carries the sentinel. *)
Definition is_done (line : string) : bool :=
  negb (String.eqb line EmptyString)
  && Py.startswith "data: " line
  && String.eqb (event_data line) "[DONE]".

(** A line of the body at which the generator stops: the sentinel, or
    bytes that do not decode. *)
Definition stops (line : body_line) : bool :=
  match line with
  | Utf8 text => is_done text
  | NotUtf8 => true
  end.

(** The fragment an event line contributes, if any. *)
Definition fragment_of (delta_content : string -> py string) (line : string)
  : option string :=
  if String.eqb line EmptyString then None
  else if Py.startswith "data: " line then
    match delta_content (event_data line) with
    | Ok (String c chunk) => Some (String c chunk)
    | _ => None
    end
  else None.

(** The fragment a line of the body contributes, if any. *)
Definition line_fragment (delta_content : string -> py string) (line : body_line)
  : option string :=
  match line with
  | Utf8 text => fragment_of delta_content text
  | NotUtf8 => None
  end.

(** How a run ends that stops at [line]. *)
Definition ends_with (line : body_line) : option exn :=
  match line with
  | Utf8 _ => None
  | NotUtf8 => Some UnicodeDecodeError
  end.

(** A line that is blank once stripped. *)
Definition is_blank (raw : string) : bool :=
  String.eqb (Py.strip raw) EmptyString.

(** The text and the style of the paragraph that a line of the itinerary
    gives, if it gives one. *)
Definition paragraph_of (bullet_glyph raw : string) : option (string * paragraph_style) :=
  let line := Py.strip raw in
  if String.eqb line EmptyString then None
  else if Py.startswith "# " line then Some (Py.drop 2 line, title_style)
  else if Py.startswith "## " line then Some (Py.drop 3 line, subtitle_style)
  else if Py.startswith "* " line || Py.startswith "- " line then
    Some (bullet_glyph +:+ " " +:+ Py.drop 2 line, body_style)
  else Some (line, body_style).

(** The markup parser accepts the title and the text of every paragraph
    of the document. *)
Definition all_accepted (bullet_glyph : string) (markup_ok : string -> bool)
    (itinerary_text dest : string) : bool :=
  markup_ok ("Travel Itinerary: " +:+ dest)
  && forallb (fun raw => match paragraph_of bullet_glyph raw with
                         | Some (text, _) => markup_ok text
                         | None => true
                         end)
       (Py.split Py.LF itinerary_text).

(** A markup parser that rejects the texts with an unclosed break tag
    and accepts the others. *)
Definition no_break_tag (text : string) : bool := negb (Py.contains "<br>" text).

(** The destination a line sets, if it sets one. *)
Definition destination_in (line : string) : option string :=
  if Py.contains "Itinerary for" line then
    match Py.split "Itinerary for" line with
    | _ :: p :: _ => Some (Py.strip p)
    | _ => None
    end
  else None.

(** A line the extractor passes over: it sets no destination, registers
    no day and holds no activity. *)
Definition inert (line : string) : bool :=
  negb (Py.contains "Itinerary for" line)
  && negb (is_day_heading line
           && match day_number line with Ok _ => true | Raise _ => false end)
  && negb (is_bullet line && Py.contains ":" (Py.strip (Py.drop 2 line))).

(** What every state reached by a script satisfies: the history holds no
    system turn; before an itinerary is taken the text, the stored days
    and the start date are empty, and after it the text holds a day
    marker; the stored days are none or those extracted from the text;
    a stored start date is a date. *)
Definition script_invariant (a : app_state) : Prop :=
  Forall not_system (messages (session (surroundings a)))
  /\ (itinerary_generated (session (surroundings a)) = false ->
      full_itinerary_text a = EmptyString
      /\ activities (extracted (stored a)) = ∅
      /\ start_date (stored a) = None
      /\ generated a = false)
  /\ (itinerary_generated (session (surroundings a)) = true ->
      has_day_marker (full_itinerary_text a) = true)
  /\ (activities (extracted (stored a)) = ∅
      \/ exists ex, extract_itinerary_data (full_itinerary_text a) = Ok ex
                    /\ activities (extracted (stored a)) = activities ex)
  /\ (forall m, start_date (stored a) = Some m -> exists o, m = OnDate o).

(** The initial session once the user has ticked the cache option. *)
Definition caching_app (net : nat -> post_result) : app_state :=
  {| surroundings :=
       {| session :=
            {| messages := [];
               itinerary_generated := false;
               api_calls := 0;
               last_query_time := None;
               use_cached_response := true;
               cached_responses := ∅ |};
          clock := 0; sent := []; network := net |};
     full_itinerary_text := EmptyString;
     stored := stored (initial_app net);
     generated := false |}.

(** An echoing parser, and a backend that always answers with the
    lines given. *)
Definition echo (data : string) : py string := Ok data.

Definition answers (lines : list string) (n : nat) : post_result :=
  Responds {| status_code := 200; iter_lines := map Utf8 lines |}.

(** A parser that returns the data followed by a line feed. *)
Definition echo_line (data : string) : py string := Ok (data +:+ Py.LF).

(** * Properties *)

(** ** The built-ins on sample arguments *)

Example split_day : Py.split "Day" "## Day 1: Day trip" = ["## "; " 1: "; " trip"].
Proof. reflexivity. Qed.

Example split_colon_once : Py.split_upto 1 ":" "9:00 AM: Visit" = ["9"; "00 AM: Visit"].
Proof. reflexivity. Qed.

Example strip_both : Py.strip "  7 PM " = "7 PM".
Proof. reflexivity. Qed.

Example int_plain : Py.int " 12 " = Ok 12.
Proof. reflexivity. Qed.

Example int_negative : Py.int "-3" = Ok (-3).
Proof. reflexivity. Qed.

Example int_underscore : Py.int "1_000" = Ok 1000.
Proof. reflexivity. Qed.

Example int_bad : Py.int "9:00" = Raise ValueError.
Proof. reflexivity. Qed.

Example int_empty : Py.int "" = Raise ValueError.
Proof. reflexivity. Qed.

Example replace_all : Py.replace "data: " "" "data: a data: b" = "a b".
Proof. reflexivity. Qed.

(** ** Cutting and replacing *)

Lemma length_append (s t : string) :
  String.length (s +:+ t) = (String.length s + String.length t)%nat.
Proof.
  induction s as [|c s IH]; [done|].
  change (String.length (String c s +:+ t)) with (S (String.length (s +:+ t))).
  rewrite IH. done.
Qed.

Lemma startswith_drop_length (p s : string) :
  Py.startswith p s = true ->
  String.length s = (String.length p + String.length (Py.drop (String.length p) s))%nat.
Proof.
  revert s. induction p as [|a p IH]; intros s Hp; [done|].
  destruct s as [|b s]; [done|]. cbn in Hp |- *.
  destruct (Ascii.eqb a b); [|done]. by rewrite <- IH.
Qed.

Lemma cut_length (sep s a b : string) :
  Py.cut sep s = Some (a, b) ->
  String.length s = (String.length a + String.length sep + String.length b)%nat.
Proof.
  revert a. induction s as [|c s IH]; intros a; cbn [Py.cut].
  - destruct (Py.startswith sep EmptyString) eqn:Hp; [|done].
    intros [= <- <-]. apply (startswith_drop_length _ _ Hp).
  - destruct (Py.startswith sep (String c s)) eqn:Hp.
    + intros [= <- <-]. apply (startswith_drop_length _ _ Hp).
    + destruct (Py.cut sep s) as [[a' b']|]; [|done].
      intros [= <- <-]. cbn. by rewrite (IH a' eq_refl).
Qed.

Lemma cut_empty (sep : string) :
  sep <> EmptyString -> Py.cut sep EmptyString = None.
Proof. destruct sep; [done|]. reflexivity. Qed.

Lemma startswith_eq (p s : string) :
  Py.startswith p s = true -> s = p +:+ Py.drop (String.length p) s.
Proof.
  revert s. induction p as [|a p IH]; intros s Hp; [done|].
  destruct s as [|b s]; [done|]. cbn in Hp.
  destruct (Ascii.eqb_spec a b) as [->|]; [|done].
  change (String b s = String b (p +:+ Py.drop (String.length p) s)).
  by rewrite <- IH.
Qed.

Lemma startswith_app_l (p x y : string) :
  Py.startswith p x = true -> Py.startswith p (x +:+ y) = true.
Proof.
  revert x. induction p as [|a p IH]; intros x Hp; [done|].
  destruct x as [|b x]; [done|]. cbn in Hp.
  change (String b x +:+ y) with (String b (x +:+ y)). cbn.
  destruct (Ascii.eqb a b); [by apply IH|done].
Qed.

(** [cut] splits the text around an occurrence of the separator ... *)
Lemma cut_eq (sep s a b : string) :
  Py.cut sep s = Some (a, b) -> s = a +:+ sep +:+ b.
Proof.
  revert a. induction s as [|c s IH]; intros a; cbn [Py.cut].
  - destruct (Py.startswith sep EmptyString) eqn:Hp; [|done].
    intros [= <- <-]. apply (startswith_eq _ _ Hp).
  - destruct (Py.startswith sep (String c s)) eqn:Hp.
    + intros [= <- <-]. apply (startswith_eq _ _ Hp).
    + destruct (Py.cut sep s) as [[a' b']|]; [|done].
      intros [= <- <-]. rewrite (IH a' eq_refl) at 1. done.
Qed.

(** ... and that occurrence is the leftmost: none lies in the text
    before it. *)
Lemma cut_before_free (sep s a b : string) :
  sep <> EmptyString -> Py.cut sep s = Some (a, b) -> Py.cut sep a = None.
Proof.
  intros Hsep. revert a. induction s as [|c s IH]; intros a; cbn [Py.cut].
  - destruct (Py.startswith sep EmptyString) eqn:Hp; [|done].
    intros [= <- <-]. by apply cut_empty.
  - destruct (Py.startswith sep (String c s)) eqn:Hp.
    + intros [= <- <-]. by apply cut_empty.
    + destruct (Py.cut sep s) as [[a' b']|] eqn:Hcut; [|done].
      intros [= <- <-]. cbn [Py.cut]. rewrite (IH a' eq_refl).
      destruct (Py.startswith sep (String c a')) eqn:Hp'; [|done].
      apply (startswith_app_l _ _ (sep +:+ b')) in Hp'.
      apply cut_eq in Hcut.
      change (String c a' +:+ sep +:+ b') with (String c (a' +:+ sep +:+ b')) in Hp'.
      rewrite <- Hcut in Hp'. congruence.
Qed.

(** More fuel than the length of the text changes nothing. *)
Lemma replace_upto_enough (old new : string) (n m : nat) (s : string) :
  old <> EmptyString ->
  (String.length s <= n)%nat -> (String.length s <= m)%nat ->
  Py.replace_upto n old new s = Py.replace_upto m old new s.
Proof.
  intros Hold. revert m s.
  assert (Hnil : forall k, Py.replace_upto k old new EmptyString = EmptyString).
  { intros [|k]; cbn [Py.replace_upto]; [done|]. by rewrite cut_empty. }
  assert (Hpos : (1 <= String.length old)%nat) by (destruct old; [done|cbn; lia]).
  induction n as [|n IH]; intros m s Hn Hm.
  - destruct s; [|cbn in Hn; lia]. by rewrite !Hnil.
  - destruct m as [|m].
    + destruct s; [|cbn in Hm; lia]. by rewrite !Hnil.
    + cbn [Py.replace_upto].
      destruct (Py.cut old s) as [[a b]|] eqn:Hcut; [|done].
      apply cut_length in Hcut. rewrite (IH m b) by lia. done.
Qed.

(** Likewise for the split: the bound used by [Py.split] never cuts a
    split short. *)
Lemma split_upto_enough (sep : string) (n m : nat) (s : string) :
  sep <> EmptyString ->
  (String.length s <= n)%nat -> (String.length s <= m)%nat ->
  Py.split_upto n sep s = Py.split_upto m sep s.
Proof.
  intros Hsep. revert m s.
  assert (Hnil : forall k, Py.split_upto k sep EmptyString = [EmptyString]).
  { intros [|k]; cbn [Py.split_upto]; [done|]. by rewrite cut_empty. }
  assert (Hpos : (1 <= String.length sep)%nat) by (destruct sep; [done|cbn; lia]).
  induction n as [|n IH]; intros m s Hn Hm.
  - destruct s; [|cbn in Hn; lia]. by rewrite !Hnil.
  - destruct m as [|m].
    + destruct s; [|cbn in Hm; lia]. by rewrite !Hnil.
    + cbn [Py.split_upto].
      destruct (Py.cut sep s) as [[a b]|] eqn:Hcut; [|done].
      apply cut_length in Hcut. rewrite (IH m b) by lia. done.
Qed.

Lemma replace_upto_shorter (old : string) (n : nat) (s : string) :
  (String.length (Py.replace_upto n old EmptyString s) <= String.length s)%nat.
Proof.
  revert s. induction n as [|n IH]; intros s; cbn [Py.replace_upto]; [lia|].
  destruct (Py.cut old s) as [[a b]|] eqn:Hcut; [|lia].
  apply cut_length in Hcut. rewrite !length_append. cbn [String.length].
  specialize (IH b). lia.
Qed.

Lemma replace_strictly_shorter (old s : string) :
  old <> EmptyString -> Py.contains old s = true ->
  (String.length (Py.replace old EmptyString s) < String.length s)%nat.
Proof.
  intros Hold. unfold Py.contains, Py.replace.
  destruct (Py.cut old s) as [[a b]|] eqn:Hcut; [intros _|done].
  pose proof (cut_length _ _ _ _ Hcut) as Hlen.
  assert (Hpos : (1 <= String.length old)%nat) by (destruct old; [done|cbn; lia]).
  destruct (String.length s) as [|n] eqn:Hs; [lia|].
  cbn [Py.replace_upto]. rewrite Hcut, !length_append. cbn [String.length].
  pose proof (replace_upto_shorter old n b). lia.
Qed.

(** Replacing by the empty string glues the pieces of the split. *)
Lemma replace_upto_split (old : string) (n : nat) (s : string) :
  Py.replace_upto n old EmptyString s
    = String.concat EmptyString (Py.split_upto n old s).
Proof.
  revert s. induction n as [|n IH]; intros s;
    cbn [Py.replace_upto Py.split_upto String.concat]; [done|].
  destruct (Py.cut old s) as [[a b]|]; [|done].
  rewrite IH. cbn [String.concat].
  destruct (Py.split_upto n old b) eqn:Hsplit; [|done].
  destruct n; cbn [Py.split_upto] in Hsplit; [done|].
  by destruct (Py.cut old b) as [[? ?]|].
Qed.

(** The marker at the head of an event line is the first one cut. *)
Lemma event_data_of_payload (payload : string) :
  event_data ("data: " +:+ payload) = Py.replace "data: " EmptyString payload.
Proof.
  unfold event_data, Py.replace. rewrite length_append.
  change (String.length "data: " + String.length payload)%nat
    with (S (5 + String.length payload)).
  cbn [Py.replace_upto].
  change (Py.cut "data: " ("data: " +:+ payload)) with (Some (EmptyString, payload)).
  change (EmptyString +:+ EmptyString +:+ ?x) with x.
  apply replace_upto_enough; [done|lia|lia].
Qed.

(** ** The extractor on concrete texts *)

(** C1.  On the Paris text the extractor finds the destination and the
    two days with their activities in order of appearance, but every
    hour is the default 9 (not 19 for the dinner, not 10 for the Louvre)
    and every name keeps the tail of the clock time: the activity text is
    cut at its first colon, the one inside the clock time, so the time
    part handed to the AM/PM scan is the bare hour digits. *)
Theorem extract_paris_hours_all_default :
  extract_itinerary_data paris_text =
    Ok {| destination := Some "Paris";
          activities :=
            {[ 1 := [ act "00 AM: Visit Eiffel Tower" 9 "Paris";
                      act "00 PM: Dinner at Le Jules Verne" 9 "Paris" ];
               2 := [ act "00 AM: Louvre Museum" 9 "Paris" ] ]} |}.
Proof. vm_compute. reflexivity. Qed.

(** C2.  The three activity lines of the claim, each under a day
    heading: the line with 2:00 PM gets the default hour 9 (the claim
    says 14), because its time part, the text before the first colon, is
    the bare digit and holds no PM marker; the other two lines get 9 as
    claimed. *)
Theorem extract_clock_time_lines :
  extract_itinerary_data (one_day "- 2:00 PM: Museum") =
    Ok {| destination := None;
          activities := {[ 1 := [ act "00 PM: Museum" 9 "" ] ]} |}
  /\ extract_itinerary_data (one_day "- 9:00 AM: Breakfast") =
    Ok {| destination := None;
          activities := {[ 1 := [ act "00 AM: Breakfast" 9 "" ] ]} |}
  /\ extract_itinerary_data (one_day "- Afternoon: Museum") =
    Ok {| destination := None;
          activities := {[ 1 := [ act "Museum" 9 "" ] ]} |}.
Proof. repeat split; vm_compute; reflexivity. Qed.

(** The AM/PM scan works when the marker comes before the first colon. *)
Example extract_hour_without_minutes :
  extract_itinerary_data (one_day "- 2 PM: Museum") =
    Ok {| destination := None;
          activities := {[ 1 := [ act "Museum" 14 "" ] ]} |}.
Proof. vm_compute. reflexivity. Qed.

(** C5.  The line with 12 PM yields the hour 24, outside 0..23: noon is
    not treated apart when 12 is added for PM.  (With 12:00 PM the time
    part is the bare 12 and the hour is the default 9.) *)
Theorem extract_noon_hour_24 :
  extract_itinerary_data (one_day "- 12 PM: Lunch") =
    Ok {| destination := None;
          activities := {[ 1 := [ act "Lunch" 24 "" ] ]} |}
  /\ extract_itinerary_data (one_day "- 12:00 PM: Lunch") =
    Ok {| destination := None;
          activities := {[ 1 := [ act "00 PM: Lunch" 9 "" ] ]} |}.
Proof. split; vm_compute; reflexivity. Qed.

(** No range check follows [int]: any integer before the marker is kept. *)
Example extract_hour_unchecked :
  extract_itinerary_data (one_day "- 99 AM: Late") =
    Ok {| destination := None;
          activities := {[ 1 := [ act "Late" 99 "" ] ]} |}
  /\ extract_itinerary_data (one_day "- -5 AM: Early") =
    Ok {| destination := None;
          activities := {[ 1 := [ act "Early" (-5) "" ] ]} |}.
Proof. split; vm_compute; reflexivity. Qed.

(** C4.  The extractor at headings numbered below 1: the headings for
    day 0 and day -3 each register their number as a key of the mapping,
    so not every key is at least 1.  The registration stands outside the
    test of a positive day that guards the bullet lines: the bullet
    under the heading for day 0 is dropped and the key 0 stays with an
    empty list. *)
Theorem extract_registers_day_below_one :
  extract_itinerary_data "# Day 0:" =
    Ok {| destination := None; activities := {[ 0 := [] ]} |}
  /\ extract_itinerary_data "# Day -3:" =
    Ok {| destination := None; activities := {[ -3 := [] ]} |}
  /\ extract_itinerary_data ("## Day 0: Arrival" +:+ Py.LF +:+ "- 9 AM: Walk") =
    Ok {| destination := None; activities := {[ 0 := [] ]} |}
  /\ ~ (forall text d k, extract_itinerary_data text = Ok d ->
          is_Some (activities d !! k) -> 1 <= k).
Proof.
  assert (H0 : extract_itinerary_data "# Day 0:" =
    Ok {| destination := None; activities := {[ 0 := [] ]} |})
    by (vm_compute; reflexivity).
  split; [exact H0|]. split; [vm_compute; reflexivity|].
  split; [vm_compute; reflexivity|].
  intros H. specialize (H _ _ 0 H0).
  cbn in H. rewrite lookup_singleton_eq in H.
  specialize (H (mk_is_Some _ _ eq_refl)). lia.
Qed.

(** ** The extractor on every text *)

Lemma index_in_range {A : Type} (l : list A) (i : nat) :
  (i < length l)%nat -> exists a, Py.index l i = Ok a.
Proof.
  intros Hi. unfold Py.index.
  destruct (lookup_lt_is_Some_2 l i Hi) as [a ->]. eauto.
Qed.

Lemma unpack_split_once (sub s : string) :
  Py.contains sub s = true ->
  exists a b, Py.unpack2 (Py.split_upto 1 sub s) = Ok (a, b).
Proof.
  unfold Py.contains. cbn [Py.split_upto].
  destruct (Py.cut sub s) as [[a b]|]; [|discriminate].
  intros _. exists a, b. reflexivity.
Qed.

Lemma destination_step_ok (line : string) (d : itinerary) :
  exists d', destination_step line d = Ok d' /\ activities d' = activities d.
Proof.
  unfold destination_step.
  destruct (Py.contains _ line); [|eauto].
  destruct (1 <? length _)%nat eqn:Hlen; [|eauto].
  apply Nat.ltb_lt in Hlen.
  destruct (index_in_range _ 1%nat Hlen) as [p ->]. cbn. eauto.
Qed.

Lemma heading_not_bullet (line : string) :
  is_day_heading line = true -> is_bullet line = false.
Proof.
  unfold is_day_heading, is_bullet.
  destruct line as [|c line]; [discriminate|]. cbn [Py.startswith].
  destruct (Ascii.eqb_spec "#" c) as [<-|Hc]; [reflexivity|discriminate].
Qed.

Lemma day_step_cases (line : string) (st : loop_state) :
  day_step line st = st
  \/ (is_day_heading line = true /\ exists n, day_number line = Ok n /\
       day_step line st =
         {| current_day := n;
            data := {| destination := destination (data st);
                       activities := register_day n (activities (data st)) |} |}).
Proof.
  unfold day_step. destruct (is_day_heading line); [|by left].
  destruct (day_number line) as [n|e]; cbn; [right; eauto|by left].
Qed.

Lemma activity_step_cases (line : string) (st : loop_state) :
  activity_step line st = Ok st
  \/ (is_bullet line = true /\ 0 < current_day st /\ exists a,
       activity_step line st =
         Ok {| current_day := current_day st;
               data := {| destination := destination (data st);
                          activities :=
                            append_activity (current_day st) a
                              (activities (data st)) |} |}
       /\ exists time_part, time_part_of line = Some time_part
            /\ hour a = hour_of time_part /\ duration a = 2).
Proof.
  unfold activity_step, time_part_of.
  destruct (is_bullet line); [|by left].
  destruct (0 <? current_day st) eqn:Hday; [|by left]. apply Z.ltb_lt in Hday.
  cbn [andb]. unfold Py.contains. cbn [Py.split_upto].
  destruct (Py.cut ":" _) as [[time_part descr]|]; [|by left].
  right. cbn. repeat split; [done|]. eexists. split; [done|].
  exists time_part. done.
Qed.

(** One iteration never raises, and it changes the mapping in one of
    three ways: not at all, by registering the number of a heading line,
    or by appending to the current, positive, day on a bullet line. *)
Lemma process_line_cases (st : loop_state) (line : string) :
  exists st', process_line st line = Ok st' /\
    ((current_day st' = current_day st
      /\ activities (data st') = activities (data st))
     \/ (is_day_heading line = true
         /\ day_number line = Ok (current_day st')
         /\ activities (data st') =
              register_day (current_day st') (activities (data st)))
     \/ (is_bullet line = true /\ is_day_heading line = false
         /\ current_day st' = current_day st /\ 0 < current_day st
         /\ exists a,
              activities (data st') =
                append_activity (current_day st) a (activities (data st))
              /\ exists time_part, time_part_of line = Some time_part
                   /\ hour a = hour_of time_part /\ duration a = 2)).
Proof.
  unfold process_line.
  destruct (destination_step_ok line (data st)) as (d & -> & Hd). cbn.
  set (st1 := {| current_day := current_day st; data := d |}).
  destruct (day_step_cases line st1) as [Hsame|(Hhead & n & Hn & Hstep)].
  - rewrite Hsame.
    destruct (activity_step_cases line st1) as [->|(Hb & Hpos & a & -> & Ha)].
    + exists st1. split; [done|]. left. by cbn.
    + eexists. split; [done|]. right. right. cbn. rewrite Hd.
      repeat split; try done; [|by eauto].
      destruct (is_day_heading line) eqn:Hh; [|done].
      apply heading_not_bullet in Hh. congruence.
  - rewrite Hstep.
    match goal with |- context [activity_step line ?s] =>
      destruct (activity_step_cases line s) as [->|(Hb & _)] end.
    + eexists. split; [done|]. right. left. cbn. by rewrite Hd.
    + apply heading_not_bullet in Hhead. congruence.
Qed.

Lemma process_line_total (st : loop_state) (line : string) :
  exists st', process_line st line = Ok st'.
Proof. destruct (process_line_cases st line) as (st' & H & _). eauto. Qed.

Lemma run_lines_total (lines : list string) (st : loop_state) :
  exists st', run_lines st lines = Ok st'.
Proof.
  revert st. induction lines as [|line rest IH]; intros st; cbn; [eauto|].
  destruct (process_line_total st line) as [st1 ->]. cbn. apply IH.
Qed.

Lemma run_lines_app (pre post : list string) (st : loop_state) :
  run_lines st (pre ++ post) = (st' ← run_lines st pre; run_lines st' post).
Proof.
  revert st. induction pre as [|line pre IH]; intros st; cbn; [done|].
  destruct (process_line st line) as [st1|e]; cbn; [apply IH|done].
Qed.

Lemma extract_total (markdown_text : string) :
  exists d, extract_itinerary_data markdown_text = Ok d.
Proof.
  unfold extract_itinerary_data.
  destruct (run_lines_total (Py.split_lines markdown_text) initial_state) as [st ->].
  cbn. eauto.
Qed.

(** Without a heading line the current day stays 0 and nothing is
    registered or appended. *)
Lemma run_lines_without_heading (lines : list string) (st : loop_state) :
  existsb is_day_heading lines = false ->
  current_day st = 0 -> activities (data st) = ∅ ->
  exists st', run_lines st lines = Ok st'
    /\ current_day st' = 0 /\ activities (data st') = ∅.
Proof.
  revert st. induction lines as [|line rest IH]; intros st Hnone Hday Hacts.
  - cbn. eauto.
  - cbn in Hnone. apply orb_false_iff in Hnone as [Hline Hrest]. cbn.
    destruct (process_line_cases st line) as (st1 & -> & Hcase). cbn.
    apply IH; [done| |].
    + destruct Hcase as [[H _]|[(Hh & _)|(_ & _ & _ & Hpos & _)]];
        [congruence|congruence|lia].
    + destruct Hcase as [[_ H]|[(Hh & _)|(_ & _ & _ & Hpos & _)]];
        [congruence|congruence|lia].
Qed.

(** C8.  The extractor returns on every text, and on a text none of
    whose lines begins with "# Day" or "## Day" the mapping of days it
    returns is empty. *)
Theorem extract_total_and_empty_without_day_heading :
  (forall markdown_text, exists d, extract_itinerary_data markdown_text = Ok d)
  /\ (forall markdown_text,
        existsb (fun line => Py.startswith "# Day" line || Py.startswith "## Day" line)
          (Py.split_lines markdown_text) = false ->
        exists d, extract_itinerary_data markdown_text = Ok d /\ activities d = ∅).
Proof.
  split; [exact extract_total|].
  intros markdown_text Hnone. unfold extract_itinerary_data.
  destruct (run_lines_without_heading (Py.split_lines markdown_text) initial_state)
    as (st & -> & _ & Hempty); [|done|done|cbn; eauto].
  rewrite <- Hnone. clear Hnone.
  induction (Py.split_lines markdown_text) as [|line rest IH]; [done|].
  cbn. rewrite IH. unfold is_day_heading. by rewrite (orb_comm (Py.startswith "# Day" line)).
Qed.

Lemma extract_total_and_empty_without_day_heading_witness :
  existsb (fun line => Py.startswith "# Day" line || Py.startswith "## Day" line)
    (Py.split_lines ("Itinerary for Rome" +:+ Py.LF +:+ "- 9 AM: Walk")) = false
  /\ exists d,
       extract_itinerary_data ("Itinerary for Rome" +:+ Py.LF +:+ "- 9 AM: Walk") = Ok d
       /\ activities d = ∅.
Proof.
  split; [reflexivity|].
  apply (proj2 extract_total_and_empty_without_day_heading). reflexivity.
Defined.

(** ** Day numbers and headings *)

Lemma introduced_app (seen more : list string) (k : Z) :
  introduced seen k -> introduced (seen ++ more) k.
Proof.
  intros (h & Hin & Hh). exists h. split; [|done].
  apply elem_of_app. by left.
Qed.

Lemma introduced_last (seen : list string) (line : string) (k : Z) :
  is_day_heading line = true -> day_number line = Ok k ->
  introduced (seen ++ [line]) k.
Proof.
  intros Hh Hn. exists line. split; [|done].
  apply elem_of_app. right. by apply list_elem_of_singleton.
Qed.

Lemma days_invariant_initial : days_invariant [] initial_state.
Proof.
  split; cbn; [lia|]. intros k acts H. by rewrite lookup_empty in H.
Qed.

Lemma days_invariant_step (seen : list string) (st st' : loop_state) (line : string) :
  days_invariant seen st -> process_line st line = Ok st' ->
  days_invariant (seen ++ [line]) st'.
Proof.
  intros [Hcur Hkeys] Hstep.
  destruct (process_line_cases st line) as (st1 & Heq & Hcase).
  rewrite Heq in Hstep. injection Hstep as ->.
  destruct Hcase as [[Hd Ha]|[(Hh & Hn & Ha)|(Hb & _ & Hd & Hpos & a & Ha & _)]].
  - split.
    + rewrite Hd, Ha. intros Hp. destruct (Hcur Hp) as [Hi Hs].
      split; [by apply introduced_app|done].
    + rewrite Ha. intros k acts Hk. destruct (Hkeys k acts Hk) as [Hi Hs].
      split; [by apply introduced_app|done].
  - split.
    + intros _. split; [by apply introduced_last|].
      rewrite Ha. unfold register_day.
      destruct (activities (data st) !! current_day st') eqn:Hl.
      * by rewrite Hl.
      * by rewrite lookup_insert_eq.
    + rewrite Ha. unfold register_day. intros k acts.
      destruct (activities (data st) !! current_day st') eqn:Hl.
      * intros Hk. destruct (Hkeys k acts Hk) as [Hi Hs].
        split; [by apply introduced_app|done].
      * destruct (decide (current_day st' = k)) as [<-|Hne].
        -- rewrite lookup_insert_eq. intros [= <-].
           split; [by apply introduced_last|done].
        -- rewrite lookup_insert_ne by done. intros Hk.
           destruct (Hkeys k acts Hk) as [Hi Hs].
           split; [by apply introduced_app|done].
  - destruct (Hcur Hpos) as [Hi Hs]. split.
    + rewrite Hd, Ha. intros _. split; [by apply introduced_app|].
      unfold append_activity. by rewrite lookup_insert_eq.
    + rewrite Ha. unfold append_activity. intros k acts.
      destruct (decide (current_day st = k)) as [<-|Hne].
      * rewrite lookup_insert_eq. intros _.
        split; [by apply introduced_app|lia].
      * rewrite lookup_insert_ne by done. intros Hk.
        destruct (Hkeys k acts Hk) as [Hi' Hs'].
        split; [by apply introduced_app|done].
Qed.

Lemma run_lines_invariant (lines seen : list string) (st st' : loop_state) :
  days_invariant seen st -> run_lines st lines = Ok st' ->
  days_invariant (seen ++ lines) st'.
Proof.
  revert seen st. induction lines as [|line rest IH]; intros seen st Hinv Hrun.
  - cbn in Hrun. injection Hrun as <-. by rewrite app_nil_r.
  - cbn in Hrun. destruct (process_line st line) as [st1|e] eqn:Hstep; [|done].
    cbn in Hrun. replace (seen ++ line :: rest) with ((seen ++ [line]) ++ rest)
      by (by rewrite <- app_assoc).
    eapply IH; [|done]. by eapply days_invariant_step.
Qed.

(** X27.  On every text the extractor returns a mapping in which every
    key is the number of a heading line of the text and every key that
    holds an activity is at least 1.  While the lines are processed in
    order, the mapping changes at a key only in two ways: a heading line
    registers its own number with the empty list, or a bullet line
    appends one activity to a key that is at least 1 and was introduced
    by a heading among the lines before it. *)
Theorem extract_days_come_from_headings (markdown_text : string) :
  exists d, extract_itinerary_data markdown_text = Ok d /\
    (forall k acts, activities d !! k = Some acts ->
       introduced (Py.split_lines markdown_text) k /\ (acts <> [] -> 1 <= k)) /\
    (forall pre line post st st' k,
       Py.split_lines markdown_text = pre ++ line :: post ->
       run_lines initial_state pre = Ok st ->
       process_line st line = Ok st' ->
       activities (data st') !! k <> activities (data st) !! k ->
       (is_day_heading line = true /\ day_number line = Ok k
          /\ activities (data st) !! k = None
          /\ activities (data st') !! k = Some [])
       \/ (is_bullet line = true /\ 1 <= k /\ introduced pre k /\
           exists acts a, activities (data st) !! k = Some acts
              /\ activities (data st') !! k = Some (acts ++ [a]))).
Proof.
  unfold extract_itinerary_data.
  destruct (run_lines_total (Py.split_lines markdown_text) initial_state)
    as [final Hrun].
  rewrite Hrun. cbn. eexists. split; [done|]. split.
  - intros k acts Hk.
    pose proof (run_lines_invariant _ [] _ _ days_invariant_initial Hrun) as [_ Hkeys].
    by apply Hkeys.
  - intros pre line post st st' k _ Hpre Hstep Hchange.
    pose proof (run_lines_invariant _ [] _ _ days_invariant_initial Hpre) as [Hcur _].
    cbn in Hcur.
    destruct (process_line_cases st line) as (st1 & Heq & Hcase).
    rewrite Heq in Hstep. injection Hstep as ->.
    destruct Hcase as [[_ Ha]|[(Hh & Hn & Ha)|(Hb & _ & _ & Hpos & a & Ha & _)]].
    + by rewrite Ha in Hchange.
    + left. rewrite Ha in Hchange |- *. unfold register_day in *.
      destruct (activities (data st) !! current_day st') eqn:Hl; [done|].
      destruct (decide (current_day st' = k)) as [<-|Hne].
      * by rewrite lookup_insert_eq.
      * by rewrite lookup_insert_ne in Hchange.
    + right. rewrite Ha in Hchange |- *. unfold append_activity in *.
      destruct (decide (current_day st = k)) as [<-|Hne].
      * destruct (Hcur Hpos) as [Hi [acts Hacts]].
        repeat split; [done|lia|done|].
        exists acts, a. rewrite lookup_insert_eq, Hacts. done.
      * by rewrite lookup_insert_ne in Hchange.
Qed.

Lemma extract_days_come_from_headings_witness :
  exists d,
    extract_itinerary_data (one_day "- 9 AM: Walk") = Ok d
    /\ activities d !! 1 = Some [act "Walk" 9 ""]
    /\ introduced (Py.split_lines (one_day "- 9 AM: Walk")) 1
    /\ 1 <= 1.
Proof.
  destruct (extract_days_come_from_headings (one_day "- 9 AM: Walk"))
    as (d & Hd & Hkeys & _).
  exists d. split; [exact Hd|].
  assert (Hl : activities d !! 1 = Some [act "Walk" 9 ""]).
  { vm_compute in Hd. injection Hd as <-. vm_compute. reflexivity. }
  split; [exact Hl|].
  destruct (Hkeys 1 _ Hl) as [Hi Hpos].
  split; [exact Hi|]. apply Hpos. discriminate.
Defined.

(** ** Hours *)

(** The hour of a time portion is the default 9, the integer read
    before AM, or 12 more than the integer read before PM. *)
Lemma hour_of_cases (time_part : string) :
  hour_of time_part = 9
  \/ (Py.contains "AM" (Py.strip time_part) = true
      /\ exists n, hour_before "AM" (Py.strip time_part) = Ok n
                   /\ hour_of time_part = n)
  \/ (Py.contains "AM" (Py.strip time_part) = false
      /\ Py.contains "PM" (Py.strip time_part) = true
      /\ exists n, hour_before "PM" (Py.strip time_part) = Ok n
                   /\ hour_of time_part = n + 12).
Proof.
  unfold hour_of, parse_hour, hour_before.
  destruct (Py.contains "AM" time_part || Py.contains "PM" time_part);
    [|by left].
  destruct (Py.contains "AM" (Py.strip time_part)).
  - destruct (Py.index (Py.split "AM" _) 0) as [before|]; [|by left]. cbn.
    destruct (Py.index (Py.split ":" _) 0) as [h|]; [|by left]. cbn.
    destruct (Py.int h) as [n|] eqn:Hn; [|by left].
    right. left. split; [done|]. by exists n.
  - destruct (Py.contains "PM" (Py.strip time_part)); [|by left].
    destruct (Py.index (Py.split "PM" _) 0) as [before|]; [|by left]. cbn.
    destruct (Py.index (Py.split ":" _) 0) as [h|]; [|by left]. cbn.
    destruct (Py.int h) as [n|] eqn:Hn; [|by left].
    right. right. split; [done|]. split; [done|]. by exists n.
Qed.

(** No check follows: the hour is within 0..23 when the integers that
    can be read are within 0..23 before AM and 0..11 before PM. *)
Lemma hour_of_in_range (time_part : string) :
  (forall n, hour_before "AM" (Py.strip time_part) = Ok n -> 0 <= n <= 23) ->
  (forall n, hour_before "PM" (Py.strip time_part) = Ok n -> 0 <= n <= 11) ->
  0 <= hour_of time_part <= 23.
Proof.
  intros Ham Hpm.
  destruct (hour_of_cases time_part)
    as [->|[(_ & n & Hn & ->)|(_ & _ & n & Hn & ->)]].
  - lia.
  - by apply Ham.
  - specialize (Hpm n Hn). lia.
Qed.

Lemma hours_invariant_step (seen : list string) (st st' : loop_state) (line : string) :
  hours_invariant seen st -> process_line st line = Ok st' ->
  hours_invariant (seen ++ [line]) st'.
Proof.
  intros Hinv Hstep.
  assert (Hold : forall k acts a,
    activities (data st) !! k = Some acts -> a ∈ acts ->
    exists l tp, l ∈ seen ++ [line] /\ is_bullet l = true
      /\ time_part_of l = Some tp /\ hour a = hour_of tp /\ duration a = 2).
  { intros k acts a Hk Ha. destruct (Hinv k acts a Hk Ha) as (l & tp & Hl & H).
    exists l, tp. split; [|done]. apply elem_of_app. by left. }
  destruct (process_line_cases st line) as (st1 & Heq & Hcase).
  rewrite Heq in Hstep. injection Hstep as ->.
  intros k acts a.
  destruct Hcase as [[_ Ha]|[(_ & _ & Ha)|(Hb & _ & _ & _ & a' & Ha & tp & Htp)]];
    rewrite Ha.
  - apply Hold.
  - unfold register_day.
    destruct (activities (data st) !! current_day st'); [apply Hold|].
    destruct (decide (current_day st' = k)) as [<-|Hne].
    + rewrite lookup_insert_eq. intros [= <-] Hin. by apply elem_of_nil in Hin.
    + rewrite lookup_insert_ne by done. apply Hold.
  - unfold append_activity.
    destruct (decide (current_day st = k)) as [<-|Hne].
    + rewrite lookup_insert_eq. intros [= <-] Hin.
      apply elem_of_app in Hin as [Hin|Hin].
      * destruct (activities (data st) !! current_day st) as [old|] eqn:Hl;
          [|by apply elem_of_nil in Hin].
        by apply (Hold (current_day st) old).
      * apply list_elem_of_singleton in Hin as ->.
        exists line, tp. split; [|done].
        apply elem_of_app. right. by apply list_elem_of_singleton.
    + rewrite lookup_insert_ne by done. apply Hold.
Qed.

Lemma run_lines_hours (lines seen : list string) (st st' : loop_state) :
  hours_invariant seen st -> run_lines st lines = Ok st' ->
  hours_invariant (seen ++ lines) st'.
Proof.
  revert seen st. induction lines as [|line rest IH]; intros seen st Hinv Hrun.
  - cbn in Hrun. injection Hrun as <-. by rewrite app_nil_r.
  - cbn in Hrun. destruct (process_line st line) as [st1|e] eqn:Hstep; [|done].
    cbn in Hrun. replace (seen ++ line :: rest) with ((seen ++ [line]) ++ rest)
      by (by rewrite <- app_assoc).
    eapply IH; [|done]. by eapply hours_invariant_step.
Qed.

(** Every activity returned stems from a bullet line of the text; its
    hour is read from the text before the first colon of that line, and
    its duration is 2. *)
Lemma extract_hours_from_time_parts (markdown_text : string) :
  exists d, extract_itinerary_data markdown_text = Ok d /\
    forall k acts a, activities d !! k = Some acts -> a ∈ acts ->
      exists line time_part,
        line ∈ Py.split_lines markdown_text /\ is_bullet line = true
        /\ time_part_of line = Some time_part
        /\ hour a = hour_of time_part /\ duration a = 2.
Proof.
  unfold extract_itinerary_data.
  destruct (run_lines_total (Py.split_lines markdown_text) initial_state)
    as [final Hrun].
  rewrite Hrun. cbn. eexists. split; [done|].
  apply (run_lines_hours _ [] initial_state final); [|done].
  intros k acts a Hk. cbn in Hk. by rewrite lookup_empty in Hk.
Qed.

(** The time portion of a bullet line never holds a colon, so a clock
    time written with minutes reaches the AM/PM scan without its
    marker. *)
Lemma time_part_without_colon (line time_part : string) :
  time_part_of line = Some time_part -> Py.contains ":" time_part = false.
Proof.
  unfold time_part_of, Py.contains.
  destruct (Py.cut ":" (Py.strip (Py.drop 2 line))) as [[tp descr]|] eqn:Hcut;
    [|done].
  intros [= <-].
  assert (Hsep : ":" <> EmptyString) by discriminate.
  by rewrite (cut_before_free _ _ _ _ Hsep Hcut).
Qed.

(** ** Response cache *)

(** C6.  After [store q r] the lookup of [q] returns exactly [r],
    whatever the cache held before and whether or not [q] contains a
    keyword of the canned table: the exact match is tried first. *)
Theorem lookup_after_store (ss : session_state) (q r : string) :
  get_cached_response (store q r ss) q = Some r.
Proof.
  unfold get_cached_response, store. cbn. by rewrite lookup_insert_eq.
Qed.

Example canned_answer_overridden :
  get_cached_response fresh_session "What should I pack for Japan?"
    = first_common "what should i pack for japan?" COMMON_QUERIES
  /\ first_common "what should i pack for japan?" COMMON_QUERIES
    = snd <$> COMMON_QUERIES !! 1%nat
  /\ get_cached_response
       (store "What should I pack for Japan?" "Layers." fresh_session)
       "What should I pack for Japan?" = Some "Layers.".
Proof. repeat split; vm_compute; reflexivity. Qed.

Lemma store_keeps_other_queries (ss : session_state) (q q' r : string) :
  q <> q' ->
  get_cached_response (store q r ss) q' = get_cached_response ss q'.
Proof.
  intros Hne. unfold get_cached_response, store. cbn.
  by rewrite lookup_insert_ne.
Qed.

(** ** Context sent to the backend *)

(** C7, as stated, fails: with a system turn among the last four turns
    of a history that has five other turns, three turns are sent after
    the instruction, not the last four of the filtered history. *)
Lemma messages_to_send_slices_before_filtering :
  messages_to_send history_with_system_turn
    = [ system_message; turn "user" "c"; turn "assistant" "d"; turn "user" "e" ]
  /\ messages_to_send_as_claimed history_with_system_turn
    = [ system_message; turn "assistant" "b"; turn "user" "c";
        turn "assistant" "d"; turn "user" "e" ]
  /\ (4 <= length (filter not_system history_with_system_turn))%nat
  /\ messages_to_send history_with_system_turn
       <> messages_to_send_as_claimed history_with_system_turn.
Proof.
  assert (H1 : messages_to_send history_with_system_turn
    = [ system_message; turn "user" "c"; turn "assistant" "d"; turn "user" "e" ])
    by (vm_compute; reflexivity).
  assert (H2 : messages_to_send_as_claimed history_with_system_turn
    = [ system_message; turn "assistant" "b"; turn "user" "c";
        turn "assistant" "d"; turn "user" "e" ])
    by (vm_compute; reflexivity).
  split; [exact H1|]. split; [exact H2|]. split; [vm_compute; lia|].
  rewrite H1, H2. discriminate.
Qed.

Lemma relevant_messages_drop (msgs : list message) :
  relevant_messages msgs = drop (length msgs - 4) msgs.
Proof.
  unfold relevant_messages.
  destruct (4 <? length msgs)%nat eqn:Hlen; [done|].
  apply Nat.ltb_ge in Hlen.
  by replace (length msgs - 4)%nat with 0%nat by lia.
Qed.

Lemma filter_keeps_all (msgs : list message) :
  Forall not_system msgs -> filter not_system msgs = msgs.
Proof.
  induction 1 as [|m msgs Hm _ IH]; [done|].
  rewrite filter_cons, decide_True by done. by rewrite IH.
Qed.

(** C7, amended.  The sequence sent is the fixed system instruction
    followed by those of the most recent 4 turns of the history that are
    not system turns: the history is cut to its last 4 turns first and
    filtered afterwards.  So at most 4 turns follow the instruction;
    exactly 4 follow when the history has at least 4 turns and none of
    its last 4 is a system turn; and on a history without system turns
    the sequence is the one the claim describes. *)
Theorem messages_to_send_recent_then_filtered (msgs : list message) :
  messages_to_send msgs
    = system_message :: filter not_system (drop (length msgs - 4) msgs)
  /\ (length (messages_to_send msgs) <= 5)%nat
  /\ ((4 <= length msgs)%nat ->
      Forall not_system (drop (length msgs - 4) msgs) ->
      length (messages_to_send msgs) = 5%nat)
  /\ (Forall not_system msgs ->
      messages_to_send msgs = messages_to_send_as_claimed msgs).
Proof.
  unfold messages_to_send. rewrite relevant_messages_drop. cbn [app].
  split; [done|]. split; [|split].
  - cbn [length].
    pose proof (length_filter not_system (drop (length msgs - 4) msgs)) as Hf.
    rewrite length_drop in Hf. lia.
  - intros Hlen Hall. rewrite (filter_keeps_all _ Hall).
    cbn [length]. rewrite length_drop. lia.
  - intros Hall. unfold messages_to_send_as_claimed. cbn [app].
    rewrite (filter_keeps_all _ Hall).
    by rewrite (filter_keeps_all _ (Forall_drop _ _ _ Hall)).
Qed.

Lemma messages_to_send_recent_then_filtered_witness :
  let msgs := [ turn "user" "a"; turn "assistant" "b"; turn "user" "c";
                turn "assistant" "d"; turn "user" "e" ] in
  (4 <= length msgs)%nat
  /\ Forall not_system msgs
  /\ length (messages_to_send msgs) = 5%nat
  /\ messages_to_send msgs = messages_to_send_as_claimed msgs.
Proof.
  intros msgs.
  assert (Hall : Forall not_system msgs)
    by (apply (bool_decide_unpack _); vm_compute; exact I).
  destruct (messages_to_send_recent_then_filtered msgs) as (_ & _ & Hfour & Hsame).
  split; [vm_compute; lia|]. split; [exact Hall|].
  split; [|exact (Hsame Hall)].
  apply Hfour; [vm_compute; lia|].
  apply (bool_decide_unpack _). vm_compute. exact I.
Defined.

(** ** Retry around the backend call *)

(** A transport failure is turned into the return value [None] inside
    the decorated function, so the decorator sees a normal return: one
    POST, no wait, no second attempt. *)
Lemma call_deepseek_returns_on_transport_failure (msgs : list message) (w : world) :
  (network w (length (sent w)) = ConnectionError
   \/ exists r, network w (length (sent w)) = Responds r
                /\ raises_for_status r = true) ->
  exists rq,
    call_deepseek msgs w = (Ok None, count_call w rq)
    /\ request_messages rq = messages_to_send msgs.
Proof.
  intros Hnet. unfold call_deepseek. cbn [retry]. unfold call_deepseek_once.
  destruct Hnet as [->|(r & -> & ->)]; eexists; (split; [reflexivity|done]).
Qed.

(** C3.  The backend fails its first two POSTs (connection error, or
    status 503) and would succeed on the third: the call returns [None]
    after the first POST, with one request sent, one call counted and no
    wait (the claim says: three attempts, two waits of 2, and the
    successful response). *)
Theorem call_deepseek_single_attempt_on_transport_failure (msgs : list message) :
  (let '(result, w) := call_deepseek msgs (fresh_world (fails_twice ConnectionError)) in
   result = Ok None /\ length (sent w) = 1%nat
   /\ api_calls (session w) = 1 /\ clock w = 0)
  /\ (let '(result, w) :=
        call_deepseek msgs (fresh_world (fails_twice (Responds unavailable_response))) in
      result = Ok None /\ length (sent w) = 1%nat
      /\ api_calls (session w) = 1 /\ clock w = 0).
Proof. split; cbn; repeat split. Qed.

(** The decorator does run three attempts, 2 apart, when the function
    raises: an exception other than [RequestException] escapes the
    [except] clause. *)
Example call_deepseek_retries_when_raising (msgs : list message) :
  (let '(result, w) := call_deepseek msgs (fresh_world (fails_twice UnexpectedError)) in
   result = Ok (Some good_response) /\ length (sent w) = 3%nat
   /\ api_calls (session w) = 3 /\ clock w = 4)
  /\ (let '(result, w) := call_deepseek msgs (fresh_world (fun _ => UnexpectedError)) in
      result = Raise RetryError /\ length (sent w) = 3%nat /\ clock w = 4).
Proof. split; cbn; repeat split. Qed.

(** ** Stream decoder *)

(** The decoder consults the parser at [event_data line] and nowhere
    else. *)
Lemma stream_text_reads_event_data (f g : string -> py string) (line : string) :
  f (event_data line) = g (event_data line) ->
  stream_text f [Utf8 line] = stream_text g [Utf8 line].
Proof.
  intros Hfg. cbn [stream_text decode].
  destruct (nonempty (Utf8 line)); [|done].
  destruct (Py.startswith "data: " line); [|done].
  destruct (String.eqb (event_data line) "[DONE]"); [done|].
  by rewrite Hfg.
Qed.

(** C10.  For an event line, the marker followed by a payload: the text
    compared with the sentinel and handed to the parser is the line with
    every occurrence of the marker taken out (the pieces of the split at
    the marker, glued), which is the payload with its own occurrences
    taken out; so when the payload contains the marker, that text is
    shorter than, and differs from, the line without its leading
    marker.  The run on such a line ends without an exception. *)
Theorem event_data_removes_markers_in_payload (payload : string) :
  let line := "data: " +:+ payload in
  (forall f, stream_text f [Utf8 line] =
     (if String.eqb (event_data line) "[DONE]" then []
      else match f (event_data line) with
           | Ok chunk => if String.eqb chunk EmptyString then [] else [chunk]
           | Raise _ => []
           end, None))
  /\ event_data line = String.concat EmptyString (Py.split "data: " line)
  /\ event_data line = Py.replace "data: " EmptyString payload
  /\ Py.drop 6 line = payload
  /\ (Py.contains "data: " payload = true ->
      (String.length (event_data line) < String.length payload)%nat
      /\ event_data line <> Py.drop 6 line).
Proof.
  intros line. split; [|split; [|split; [|split]]].
  - intros f. unfold line.
    assert (Hn : nonempty (Utf8 ("data: " +:+ payload)) = true) by reflexivity.
    assert (Hs : Py.startswith "data: " ("data: " +:+ payload) = true) by reflexivity.
    cbn [stream_text decode]. rewrite Hn, Hs.
    destruct (String.eqb (event_data ("data: " +:+ payload)) "[DONE]"); [done|].
    destruct (f (event_data ("data: " +:+ payload))) as [chunk|e]; [|done].
    by destruct (String.eqb chunk EmptyString).
  - apply replace_upto_split.
  - apply event_data_of_payload.
  - reflexivity.
  - intros Hin. unfold line. rewrite event_data_of_payload.
    pose proof (replace_strictly_shorter "data: " payload ltac:(done) Hin) as Hlt.
    split; [exact Hlt|].
    change (Py.drop 6 ("data: " +:+ payload)) with payload.
    intros Heq. rewrite Heq in Hlt. lia.
Qed.

Lemma event_data_removes_markers_in_payload_witness :
  Py.contains "data: " "{data: 1}" = true
  /\ event_data "data: {data: 1}" = "{1}"
  /\ event_data "data: {data: 1}" <> Py.drop 6 "data: {data: 1}".
Proof.
  split; [reflexivity|]. split; [reflexivity|].
  apply (event_data_removes_markers_in_payload "{data: 1}"). reflexivity.
Defined.

(** A payload that is the sentinel once its inner marker is removed
    ends the stream. *)
Example stream_text_inner_marker (f : string -> py string) :
  stream_text f [Utf8 "data: data: [DONE]"; Utf8 "data: x"] = ([], None)
  /\ stream_text (fun data => Ok data)
       [Utf8 "data: {data: 1}"; Utf8 "data: [DONE]"; Utf8 "data: x"]
     = (["{1}"], None).
Proof. split; reflexivity. Qed.

(** ** Calendar renderer *)

Lemma for_each_cases {A B : Type} (body : A -> py (list B)) (ok : A -> bool)
    (added : A -> list B) (e : exn) (items : list A) :
  (forall x, body x = if ok x then Ok (added x) else Raise e) ->
  for_each body items
    = if forallb ok items then Ok (flat_map added items) else Raise e.
Proof.
  intros Hbody. induction items as [|x items IH]; [done|].
  cbn [for_each forallb flat_map]. rewrite Hbody, IH.
  destruct (ok x); [|done]. by destruct (forallb ok items).
Qed.

Lemma make_event_cases (start : moment) (day : Z) (a : activity) :
  make_event start day a
    = if event_in_range start day a then Ok (event_at start day a)
      else Raise OverflowError.
Proof.
  unfold make_event, event_in_range, timedelta, moment_add.
  destruct (span_in_range (span (day - 1) (hour a))); [|done].
  cbn [mbind py_bind andb].
  destruct (moment_in_range (shift start (span (day - 1) (hour a)))); [|done].
  cbn [mbind py_bind andb].
  by destruct (span_in_range (span 0 (duration a))).
Qed.

(** The renderer returns the events of all activities when every one of
    them lies within the limits of the date library, and raises
    otherwise. *)
Lemma create_ics_cases (now : Z) (d : itinerary_data) :
  create_ics now d
    = if all_in_range (default (AtTime now) (start_date d))
           (activities (extracted d))
      then Ok (events_of (default (AtTime now) (start_date d))
                 (activities (extracted d)))
      else Raise OverflowError.
Proof.
  unfold create_ics, all_in_range, events_of.
  apply for_each_cases. intros [day acts].
  rewrite (for_each_cases _ (event_in_range (default (AtTime now) (start_date d)) day)
             (fun a => [event_at (default (AtTime now) (start_date d)) day a])
             OverflowError).
  - assert (Hmap : forall (f : activity -> event) l,
              flat_map (fun a => [f a]) l = map f l).
    { intros f l. induction l as [|a l IH]; [done|]. cbn. by rewrite IH. }
    by rewrite Hmap.
  - intros a. rewrite make_event_cases. by destruct (event_in_range _ day a).
Qed.

Lemma all_in_range_true (start : moment) (days : gmap Z (list activity)) :
  all_in_range start days = true <->
  forall day acts a,
    days !! day = Some acts -> a ∈ acts ->
    event_in_range start day a = true.
Proof.
  unfold all_in_range. rewrite forallb_forall. split.
  - intros Hall day acts a Hl Ha.
    specialize (Hall (day, acts)). cbn in Hall.
    rewrite forallb_forall in Hall. apply Hall.
    + apply list_elem_of_In. by apply elem_of_map_to_list.
    + by apply list_elem_of_In.
  - intros Hall [day acts] Hin. apply forallb_forall. intros a Ha.
    apply (Hall day acts a).
    + apply elem_of_map_to_list. by apply list_elem_of_In.
    + by apply list_elem_of_In.
Qed.

Lemma events_of_length (start : moment) (it : itinerary) :
  length (events_of start (activities it)) = activity_count it.
Proof.
  unfold events_of, activity_count.
  induction (map_to_list (activities it)) as [|[day acts] rest IH]; [done|].
  cbn. rewrite length_app, length_map, IH. done.
Qed.

Lemma events_of_events (start : moment) (days : gmap Z (list activity))
    (ev : event) :
  ev ∈ events_of start days <->
  exists day acts a,
    days !! day = Some acts /\ a ∈ acts /\ ev = event_at start day a.
Proof.
  unfold events_of. rewrite list_elem_of_In, in_flat_map. split.
  - intros ([day acts] & Hin & Hev).
    apply in_map_iff in Hev as (a & <- & Ha).
    exists day, acts, a. split; [|split; [|done]].
    + apply elem_of_map_to_list. by apply list_elem_of_In.
    + by apply list_elem_of_In.
  - intros (day & acts & a & Hl & Ha & ->).
    exists (day, acts). split.
    + apply list_elem_of_In. by apply elem_of_map_to_list.
    + apply in_map. by apply list_elem_of_In.
Qed.

Lemma create_ics_length (now : Z) (d : itinerary_data) (events : list event) :
  create_ics now d = Ok events ->
  length events = activity_count (extracted d).
Proof.
  rewrite create_ics_cases. destruct (all_in_range _ _); [|done].
  intros [= <-]. apply events_of_length.
Qed.

Lemma create_ics_events (now : Z) (d : itinerary_data) (events : list event)
    (ev : event) :
  create_ics now d = Ok events ->
  ev ∈ events <->
  exists day acts a,
    activities (extracted d) !! day = Some acts /\ a ∈ acts
    /\ ev = event_at (default (AtTime now) (start_date d)) day a.
Proof.
  rewrite create_ics_cases. destruct (all_in_range _ _); [|done].
  intros [= <-]. apply events_of_events.
Qed.

(** C9.  With no start date the renderer takes the reading of the clock
    as the base.  When every event lies within the limits of the date
    library it returns one event per activity, and the event of an
    activity of day [d] begins at that reading plus [d - 1] days plus
    the activity's hour in hours, with the activity's name, description,
    location and duration in hours.  When some event lies beyond the
    limits it raises [OverflowError]. *)
Theorem create_ics_without_start_date (now : Z) (d : itinerary_data) :
  start_date d = None ->
  (all_in_range (AtTime now) (activities (extracted d)) = true ->
   exists events,
     create_ics now d = Ok events
     /\ length events = activity_count (extracted d)
     /\ (forall day acts a,
           activities (extracted d) !! day = Some acts -> a ∈ acts ->
           {| event_name := name a;
              event_begin :=
                AtTime (now + (day - 1) * micros_per_day + hour a * micros_per_hour);
              event_duration := duration a * micros_per_hour;
              event_description := description a;
              event_location := location a |} ∈ events)
     /\ (forall ev, ev ∈ events ->
           exists day acts a,
             activities (extracted d) !! day = Some acts /\ a ∈ acts
             /\ event_name ev = name a
             /\ event_begin ev =
                  AtTime (now + (day - 1) * micros_per_day + hour a * micros_per_hour)))
  /\ (all_in_range (AtTime now) (activities (extracted d)) = false ->
      create_ics now d = Raise OverflowError).
Proof.
  intros Hnone.
  pose proof (create_ics_cases now d) as Hcases. rewrite Hnone in Hcases.
  cbn [default] in Hcases. split; intros Hrange; rewrite Hrange in Hcases; [|done].
  exists (events_of (AtTime now) (activities (extracted d))).
  split; [done|]. split; [apply events_of_length|]. split.
  - intros day acts a Hl Ha. apply events_of_events.
    exists day, acts, a. split; [done|]. split; [done|].
    unfold event_at, shift, span. f_equal; try f_equal; lia.
  - intros ev Hev. apply events_of_events in Hev as (day & acts & a & Hl & Ha & ->).
    exists day, acts, a. split; [done|]. split; [done|].
    split; [done|]. unfold event_at, shift, span. cbn. f_equal. lia.
Qed.

Lemma create_ics_without_start_date_witness :
  start_date undated_walk = None
  /\ all_in_range (AtTime sample_now) (activities (extracted undated_walk)) = true
  /\ exists events,
       create_ics sample_now undated_walk = Ok events
       /\ length events = 1%nat
       /\ {| event_name := "Walk";
             event_begin := AtTime (sample_now + 33 * micros_per_hour);
             event_duration := 2 * micros_per_hour;
             event_description := "Walk";
             event_location := EmptyString |} ∈ events.
Proof.
  split; [reflexivity|]. split; [vm_compute; reflexivity|].
  destruct (proj1 (create_ics_without_start_date sample_now undated_walk eq_refl)
              ltac:(vm_compute; reflexivity))
    as (events & Hics & Hlen & Hev & _).
  exists events. split; [exact Hics|].
  split; [rewrite Hlen; vm_compute; reflexivity|].
  apply (Hev 2 [act "Walk" 9 EmptyString] (act "Walk" 9 EmptyString)).
  - vm_compute. reflexivity.
  - apply list_elem_of_singleton. reflexivity.
Defined.

(** The limits do not depend on where the base comes from: the same
    activity overflows from a stored start date. *)
Example create_ics_raises_with_start_date :
  create_ics sample_now
    {| start_date := Some (OnDate 739953);
       extracted := {| destination := None;
                       activities := {[ 1 := [act "Party" 1000000000 EmptyString] ]} |} |}
  = Raise OverflowError.
Proof. vm_compute. reflexivity. Qed.

(** C9, as the claim words it, fails on an activity whose hour carries
    the event beyond year 9999: the extractor reads the hour 1000000000
    from the line below, and with no start date the renderer raises
    instead of returning an event. *)
Lemma create_ics_raises_without_start_date :
  exists ex,
    extract_itinerary_data (one_day "- 1000000000 AM: Party") = Ok ex
    /\ activities ex = {[ 1 := [act "Party" 1000000000 EmptyString] ]}
    /\ create_ics sample_now {| start_date := None; extracted := ex |}
       = Raise OverflowError.
Proof.
  eexists. split; [vm_compute; reflexivity|].
  split; [vm_compute; reflexivity|]. vm_compute. reflexivity.
Qed.

(** * Further properties of the code around the claims *)

(** ** Occurrences and case *)

Lemma string_app_assoc (a b c : string) : (a +:+ b) +:+ c = a +:+ b +:+ c.
Proof.
  induction a as [|x a IH]; [done|].
  change (String x ((a +:+ b) +:+ c) = String x (a +:+ b +:+ c)). by rewrite IH.
Qed.

Lemma startswith_self_app (k post : string) : Py.startswith k (k +:+ post) = true.
Proof.
  induction k as [|x k IH]; [done|].
  change (String x k +:+ post) with (String x (k +:+ post)). cbn.
  by rewrite Ascii.eqb_refl.
Qed.

Lemma contains_app (pre k post : string) :
  Py.contains k (pre +:+ k +:+ post) = true.
Proof.
  unfold Py.contains. induction pre as [|x pre IH].
  - change (EmptyString +:+ k +:+ post) with (k +:+ post).
    destruct post as [|y post], k as [|z k]; cbn [Py.cut];
      try rewrite startswith_self_app; try done.
    + change (String z k +:+ EmptyString) with (String z (k +:+ EmptyString)).
      cbn [Py.cut].
      change (String z (k +:+ EmptyString)) with (String z k +:+ EmptyString).
      by rewrite startswith_self_app.
    + change (String z k +:+ String y post) with (String z (k +:+ String y post)).
      cbn [Py.cut].
      change (String z (k +:+ String y post)) with (String z k +:+ String y post).
      by rewrite startswith_self_app.
  - change (String x pre +:+ k +:+ post) with (String x (pre +:+ k +:+ post)).
    cbn [Py.cut].
    destruct (Py.startswith k (String x (pre +:+ k +:+ post))); [done|].
    by destruct (Py.cut k (pre +:+ k +:+ post)) as [[? ?]|].
Qed.

Lemma contains_inv (k s : string) :
  Py.contains k s = true -> exists a b, s = a +:+ k +:+ b.
Proof.
  unfold Py.contains. destruct (Py.cut k s) as [[a b]|] eqn:Hcut; [|done].
  intros _. exists a, b. by apply cut_eq.
Qed.

Lemma lower_app (a b : string) : Py.lower (a +:+ b) = Py.lower a +:+ Py.lower b.
Proof.
  induction a as [|x a IH]; [done|].
  change (Py.lower (String x (a +:+ b))
          = String (Py.lower_char x) (Py.lower a +:+ Py.lower b)).
  cbn. by rewrite IH.
Qed.

Lemma lower_char_idem (c : ascii) :
  Py.lower_char (Py.lower_char c) = Py.lower_char c.
Proof. by destruct c as [[] [] [] [] [] [] [] []]. Qed.

Lemma lower_idem (s : string) : Py.lower (Py.lower s) = Py.lower s.
Proof.
  induction s as [|c s IH]; [done|]. cbn. by rewrite lower_char_idem, IH.
Qed.

(** An occurrence survives lowering both texts. *)
Lemma contains_lower (k s : string) :
  Py.contains k s = true -> Py.contains (Py.lower k) (Py.lower s) = true.
Proof.
  intros (a & b & ->)%contains_inv. rewrite !lower_app. apply contains_app.
Qed.

(** ** More on the response cache *)

Lemma first_common_none (q : string) (table : list (string * string)) :
  first_common q table = None <->
  Forall (fun kv => Py.contains kv.1 q = false) table.
Proof.
  induction table as [|[key answer] rest IH]; cbn.
  - split; [constructor|done].
  - destruct (Py.contains key q) eqn:Hk.
    + split; [done|]. intros H. apply Forall_cons in H as [H _]. cbn in H. congruence.
    + rewrite IH. split; [by constructor|]. by intros [_ H]%Forall_cons.
Qed.

Lemma first_common_first (q : string) (table : list (string * string))
    (i : nat) (key answer : string) :
  table !! i = Some (key, answer) ->
  Py.contains key q = true ->
  (forall j kv, (j < i)%nat -> table !! j = Some kv -> Py.contains kv.1 q = false) ->
  first_common q table = Some answer.
Proof.
  revert i. induction table as [|[key0 answer0] rest IH]; intros i Hi Hk Hbefore;
    [done|].
  destruct i as [|i]; cbn in Hi |- *.
  - injection Hi as -> ->. by rewrite Hk.
  - assert (H0 : Py.contains key0 q = false)
      by (apply (Hbefore 0%nat (key0, answer0)); [lia|done]).
    rewrite H0. apply (IH i); [done|done|].
    intros j kv Hj Hl. apply (Hbefore (S j) kv); [lia|done].
Qed.

Lemma first_common_some (q : string) (table : list (string * string)) (answer : string) :
  first_common q table = Some answer ->
  exists key, (key, answer) ∈ table /\ Py.contains key q = true.
Proof.
  induction table as [|[key0 answer0] rest IH]; cbn; [done|].
  destruct (Py.contains key0 q) eqn:Hk.
  - intros [= ->]. exists key0. split; [apply elem_of_cons; by left|done].
  - intros (key & Hin & Hc)%IH. exists key. split; [|done].
    apply elem_of_cons. by right.
Qed.

(** X1.  A lookup misses exactly when the query was never stored and
    its lowercased form contains none of the canned keywords. *)
Theorem lookup_miss_iff (ss : session_state) (query : string) :
  get_cached_response ss query = None <->
  cached_responses ss !! query = None
  /\ Forall (fun kv => Py.contains kv.1 (Py.lower query) = false) COMMON_QUERIES.
Proof.
  unfold get_cached_response.
  destruct (cached_responses ss !! query) as [r|].
  - split; [done|]. by intros [? _].
  - rewrite first_common_none. split; [done|]. by intros [_ ?].
Qed.

Lemma lookup_miss_iff_witness :
  get_cached_response fresh_session "Where is Oslo?" = None.
Proof.
  apply (proj2 (lookup_miss_iff fresh_session "Where is Oslo?")).
  split; [reflexivity|]. repeat constructor.
Defined.

(** X2.  For a query that was never stored, the canned answer returned
    is that of the first keyword, in the order of the table, that occurs
    in the lowercased query. *)
Theorem lookup_first_keyword (ss : session_state) (query : string)
    (i : nat) (key answer : string) :
  cached_responses ss !! query = None ->
  COMMON_QUERIES !! i = Some (key, answer) ->
  Py.contains key (Py.lower query) = true ->
  (forall j kv, (j < i)%nat -> COMMON_QUERIES !! j = Some kv ->
     Py.contains kv.1 (Py.lower query) = false) ->
  get_cached_response ss query = Some answer.
Proof.
  intros Hmiss Hi Hk Hbefore. unfold get_cached_response. rewrite Hmiss.
  by apply (first_common_first _ _ i key).
Qed.

Lemma lookup_first_keyword_witness :
  get_cached_response fresh_session "Transportation options and what should I PACK?"
    = snd <$> COMMON_QUERIES !! 1%nat.
Proof.
  apply (lookup_first_keyword fresh_session _ 1%nat "what should i pack").
  - reflexivity.
  - reflexivity.
  - reflexivity.
  - intros j kv Hj Hl. destruct j as [|j]; [|lia].
    injection Hl as <-. reflexivity.
Defined.

(** X3.  The keyword match ignores case and surrounding text: a query
    never stored that contains, in any mix of cases, a keyword of the
    table gets a canned answer of the table. *)
Theorem lookup_keyword_any_case (ss : session_state)
    (before word after key answer : string) :
  (key, answer) ∈ COMMON_QUERIES ->
  Py.lower word = key ->
  cached_responses ss !! (before +:+ word +:+ after) = None ->
  exists key' answer',
    get_cached_response ss (before +:+ word +:+ after) = Some answer'
    /\ (key', answer') ∈ COMMON_QUERIES
    /\ Py.contains key' (Py.lower (before +:+ word +:+ after)) = true.
Proof.
  intros Hin Hword Hmiss. unfold get_cached_response. rewrite Hmiss.
  destruct (first_common (Py.lower (before +:+ word +:+ after)) COMMON_QUERIES)
    as [answer'|] eqn:Hfirst.
  - destruct (first_common_some _ _ _ Hfirst) as (key' & Hin' & Hc). eauto.
  - apply first_common_none in Hfirst.
    rewrite Forall_forall in Hfirst. specialize (Hfirst _ Hin). cbn in Hfirst.
    rewrite !lower_app, Hword, contains_app in Hfirst. done.
Qed.

Lemma lookup_keyword_any_case_witness :
  exists key' answer',
    get_cached_response fresh_session ("So, " +:+ "BEST Time To Visit" +:+ " Peru?")
      = Some answer'
    /\ (key', answer') ∈ COMMON_QUERIES
    /\ Py.contains key' (Py.lower ("So, " +:+ "BEST Time To Visit" +:+ " Peru?")) = true.
Proof.
  apply (lookup_keyword_any_case fresh_session "So, " "BEST Time To Visit" " Peru?"
           "best time to visit" (default EmptyString (snd <$> COMMON_QUERIES !! 2%nat))).
  - apply list_elem_of_lookup. exists 2%nat. reflexivity.
  - reflexivity.
  - reflexivity.
Defined.

(** X4.  Storing a reply for one query leaves the lookup of every
    other query as it was. *)
Theorem store_other_query_unchanged (ss : session_state) (q q' r : string) :
  q <> q' ->
  get_cached_response (store q r ss) q' = get_cached_response ss q'.
Proof. apply store_keeps_other_queries. Qed.

Lemma store_other_query_unchanged_witness :
  get_cached_response (store "a" "b" fresh_session) "recommend restaurants in Oslo"
    = get_cached_response fresh_session "recommend restaurants in Oslo".
Proof. apply store_other_query_unchanged. discriminate. Defined.

(** ** More on the backend call *)

Lemma choose_model_constant (msgs : list message) (ss : session_state) :
  choose_model msgs ss = "deepseek-chat".
Proof.
  unfold choose_model.
  destruct ((2 <? length msgs)%nat && itinerary_generated ss); [|done].
  destruct (last msgs); [|done]. by destruct (negb _).
Qed.

Lemma call_deepseek_once_spec (msgs : list message) (w : world) :
  call_deepseek_once msgs true w
    = (attempt_result (network w (length (sent w))),
       count_call w (request_for msgs)).
Proof.
  unfold call_deepseek_once, request_for. rewrite choose_model_constant.
  destruct (network w (length (sent w))) as [r| |]; cbn; [|done|done].
  by destruct (raises_for_status r).
Qed.

(** The whole course of a call: [k] POSTs, the first [k - 1] of which
    raised, and the result made of what the last one met. *)
Lemma call_deepseek_trace (msgs : list message) (w : world) :
  exists k : nat,
    (1 <= k <= 3)%nat
    /\ sent (call_deepseek msgs w).2 = sent w ++ replicate k (request_for msgs)
    /\ api_calls (session (call_deepseek msgs w).2)
         = api_calls (session w) + Z.of_nat k
    /\ clock (call_deepseek msgs w).2 = clock w + 2 * (Z.of_nat k - 1)
    /\ network (call_deepseek msgs w).2 = network w
    /\ messages (session (call_deepseek msgs w).2) = messages (session w)
    /\ cached_responses (session (call_deepseek msgs w).2)
         = cached_responses (session w)
    /\ itinerary_generated (session (call_deepseek msgs w).2)
         = itinerary_generated (session w)
    /\ use_cached_response (session (call_deepseek msgs w).2)
         = use_cached_response (session w)
    /\ (forall j, (j < k - 1)%nat ->
          network w (length (sent w) + j) = UnexpectedError)
    /\ (call_deepseek msgs w).1 =
         match attempt_result (network w (length (sent w) + (k - 1))) with
         | Ok v => Ok v
         | Raise _ => Raise RetryError
         end
    /\ (network w (length (sent w) + (k - 1)) = UnexpectedError -> k = 3%nat).
Proof.
  unfold call_deepseek. cbn [retry]. rewrite call_deepseek_once_spec.
  destruct (attempt_result (network w (length (sent w)))) as [v|e] eqn:H1.
  { exists 1%nat. cbn. rewrite Nat.add_0_r, H1.
    repeat split; try done; try lia.
    - intros Hu. by rewrite Hu in H1. }
  assert (U1 : network w (length (sent w)) = UnexpectedError).
  { destruct (network w (length (sent w))) as [r| |]; cbn in H1; try done.
    by destruct (raises_for_status r). }
  rewrite call_deepseek_once_spec. cbn [sleep count_call sent network].
  rewrite length_app. cbn [length].
  destruct (attempt_result (network w (length (sent w) + 1))) as [v|e2] eqn:H2.
  { exists 2%nat. cbn. rewrite H2.
    repeat split; try done; try lia.
    - by rewrite <- app_assoc.
    - intros j Hj. replace j with 0%nat by lia. by rewrite Nat.add_0_r.
    - intros Hu. by rewrite Hu in H2. }
  assert (U2 : network w (length (sent w) + 1) = UnexpectedError).
  { destruct (network w (length (sent w) + 1)) as [r| |]; cbn in H2; try done.
    by destruct (raises_for_status r). }
  rewrite call_deepseek_once_spec. cbn [sleep count_call sent network].
  rewrite !length_app. cbn [length].
  replace (length (sent w) + 1 + 1)%nat with (length (sent w) + 2)%nat by lia.
  exists 3%nat.
  destruct (attempt_result (network w (length (sent w) + 2))) as [v|e3] eqn:H3;
    cbn; repeat split; try done; try lia;
    try (by rewrite <- !app_assoc);
    try (by rewrite H3);
    try (intros j Hj; destruct j as [|[|j]];
         [by rewrite Nat.add_0_r|done|lia]).
Qed.

(** X5.  Whatever the backend does, one call posts between one and
    three requests, all with the same body (the model name, the system
    instruction followed by the recent turns, the token limit); it adds
    the number of POSTs to the call counter, waits 2 between two POSTs,
    and leaves the history and the cache of the session untouched. *)
Theorem call_deepseek_accounting (msgs : list message) (w : world) :
  exists k : nat,
    (1 <= k <= 3)%nat
    /\ sent (call_deepseek msgs w).2 = sent w ++ replicate k (request_for msgs)
    /\ api_calls (session (call_deepseek msgs w).2)
         = api_calls (session w) + Z.of_nat k
    /\ clock (call_deepseek msgs w).2 = clock w + 2 * (Z.of_nat k - 1)
    /\ messages (session (call_deepseek msgs w).2) = messages (session w)
    /\ cached_responses (session (call_deepseek msgs w).2)
         = cached_responses (session w).
Proof.
  destruct (call_deepseek_trace msgs w)
    as (k & Hk & Hsent & Hcalls & Hclock & _ & Hmsgs & Hcache & _).
  exists k. done.
Qed.

(** X6.  A response is handed back only when its status is not an
    error status, and it is the answer to the last request posted; the
    call raises only after three POSTs that each raised something other
    than a request exception; and a second POST is made only after the
    first one raised in that way. *)
Theorem call_deepseek_result (msgs : list message) (w : world) :
  (forall r, (call_deepseek msgs w).1 = Ok (Some r) ->
     raises_for_status r = false
     /\ network w (length (sent (call_deepseek msgs w).2) - 1) = Responds r)
  /\ (forall e, (call_deepseek msgs w).1 = Raise e ->
       e = RetryError
       /\ forall j, (j < 3)%nat ->
            network w (length (sent w) + j) = UnexpectedError)
  /\ (network w (length (sent w)) <> UnexpectedError ->
       call_deepseek msgs w
         = (attempt_result (network w (length (sent w))),
            count_call w (request_for msgs))).
Proof.
  destruct (call_deepseek_trace msgs w)
    as (k & Hk & Hsent & _ & _ & _ & _ & _ & _ & _ & Hbefore & Hres & Hlast).
  split; [|split].
  - intros r Hr. rewrite Hres in Hr. rewrite Hsent, length_app, length_replicate.
    replace (length (sent w) + k - 1)%nat with (length (sent w) + (k - 1))%nat by lia.
    destruct (network w (length (sent w) + (k - 1))) as [r'| |]; cbn in Hr; try done.
    destruct (raises_for_status r') eqn:Hs; [done|]. by injection Hr as <-.
  - intros e He. rewrite Hres in He.
    destruct (network w (length (sent w) + (k - 1))) as [r'| |] eqn:Hn;
      cbn in He; try done.
    + by destruct (raises_for_status r').
    + injection He as <-. split; [done|].
      specialize (Hlast eq_refl). subst k. intros j Hj.
      destruct (decide (j = 2%nat)) as [->|]; [done|]. apply Hbefore. lia.
  - intros Hfirst. unfold call_deepseek. cbn [retry].
    rewrite call_deepseek_once_spec.
    destruct (network w (length (sent w))) as [r| |]; cbn; try done.
    by destruct (raises_for_status r).
Qed.

Lemma call_deepseek_result_witness :
  call_deepseek [] (fresh_world (fun _ => Responds good_response))
    = (Ok (Some good_response),
       count_call (fresh_world (fun _ => Responds good_response)) (request_for [])).
Proof.
  apply (proj2 (proj2 (call_deepseek_result []
           (fresh_world (fun _ => Responds good_response))))).
  discriminate.
Defined.

(** ** More on the stream decoder *)

Lemma stream_text_cons (f : string -> py string) (line : body_line)
    (rest : list body_line) :
  stream_text f (line :: rest) =
    if stops line then ([], ends_with line)
    else match line_fragment f line with
         | Some chunk => yield chunk (stream_text f rest)
         | None => stream_text f rest
         end.
Proof.
  cbn [stream_text]. destruct line as [text|]; [|done].
  cbn [stops ends_with line_fragment decode]. unfold is_done, fragment_of.
  destruct text as [|c text]; [done|]. cbn [nonempty String.eqb negb andb].
  destruct (Py.startswith "data: " (String c text)); [|done]. cbn [negb andb].
  destruct (String.eqb (event_data (String c text)) "[DONE]"); [done|].
  destruct (f (event_data (String c text))) as [[|x chunk]|]; done.
Qed.

Lemma stream_text_no_stop (f : string -> py string) (lines : list body_line) :
  existsb stops lines = false ->
  stream_text f lines = (omap (line_fragment f) lines, None).
Proof.
  induction lines as [|line rest IH]; [done|].
  rewrite stream_text_cons. cbn [existsb omap list_omap].
  intros [Hline Hrest]%orb_false_iff. rewrite Hline.
  destruct (line_fragment f line); by rewrite IH.
Qed.

Lemma stream_text_until_stop (f : string -> py string) (pre : list body_line)
    (line : body_line) (post : list body_line) :
  existsb stops pre = false -> stops line = true ->
  stream_text f (pre ++ line :: post) = (omap (line_fragment f) pre, ends_with line).
Proof.
  intros Hpre Hline. induction pre as [|l pre IH]; cbn [app].
  - rewrite stream_text_cons. by rewrite Hline.
  - cbn [existsb] in Hpre. apply orb_false_iff in Hpre as [Hl Hpre].
    rewrite stream_text_cons, Hl. cbn [omap list_omap].
    destruct (line_fragment f l); by rewrite IH.
Qed.

(** X7.  The decoder reads up to the first line that is the sentinel or
    that does not decode, and no further: the fragments yielded are
    those of the event lines before it, in order; the run ends normally
    at the sentinel and with [UnicodeDecodeError] at a line that does
    not decode.  With no such line the fragments are those of all the
    lines and the run ends normally. *)
Theorem stream_text_reads_up_to_sentinel (f : string -> py string)
    (lines : list body_line) :
  (existsb stops lines = false ->
   stream_text f lines = (omap (line_fragment f) lines, None))
  /\ (forall pre line post,
        lines = pre ++ line :: post ->
        existsb stops pre = false -> stops line = true ->
        stream_text f lines
          = (omap (line_fragment f) pre,
             match line with
             | Utf8 _ => None
             | NotUtf8 => Some UnicodeDecodeError
             end)).
Proof.
  split; [apply stream_text_no_stop|].
  intros pre line post -> Hpre Hline. by apply stream_text_until_stop.
Qed.

Lemma stream_text_reads_up_to_sentinel_witness :
  stream_text (fun data => Ok data)
      [Utf8 "data: a"; Utf8 "data: [DONE]"; NotUtf8; Utf8 "data: b"]
    = (["a"], None)
  /\ stream_text (fun data => Ok data)
       [Utf8 "data: a"; NotUtf8; Utf8 "data: b"; Utf8 "data: [DONE]"]
     = (["a"], Some UnicodeDecodeError).
Proof.
  split.
  - apply (proj2 (stream_text_reads_up_to_sentinel (fun data => Ok data)
                    [Utf8 "data: a"; Utf8 "data: [DONE]"; NotUtf8; Utf8 "data: b"])
             [Utf8 "data: a"] (Utf8 "data: [DONE]") [NotUtf8; Utf8 "data: b"]);
      reflexivity.
  - apply (proj2 (stream_text_reads_up_to_sentinel (fun data => Ok data)
                    [Utf8 "data: a"; NotUtf8; Utf8 "data: b"; Utf8 "data: [DONE]"])
             [Utf8 "data: a"] NotUtf8 [Utf8 "data: b"; Utf8 "data: [DONE]"]);
      reflexivity.
Defined.

(** X8.  No fragment yielded is empty, and each one is the content the
    parser returned for the data of an event line of the response. *)
Theorem stream_text_fragments (f : string -> py string) (lines : list body_line)
    (chunk : string) :
  chunk ∈ (stream_text f lines).1 ->
  chunk <> EmptyString
  /\ exists line, Utf8 line ∈ lines /\ Py.startswith "data: " line = true
       /\ f (event_data line) = Ok chunk.
Proof.
  induction lines as [|line rest IH]; [by intros ?%elem_of_nil|].
  rewrite stream_text_cons.
  assert (Hrest : chunk ∈ (stream_text f rest).1 ->
    chunk <> EmptyString
    /\ exists l, Utf8 l ∈ line :: rest /\ Py.startswith "data: " l = true
         /\ f (event_data l) = Ok chunk).
  { intros (Hne & l & Hl & H)%IH. split; [done|]. exists l. split; [|done].
    apply elem_of_cons. by right. }
  destruct (stops line); [by intros ?%elem_of_nil|].
  destruct (line_fragment f line) as [c|] eqn:Hfrag; [|done].
  cbn [yield fst]. intros [->|Hin]%elem_of_cons; [|by apply Hrest].
  destruct line as [text|]; [|done]. cbn [line_fragment] in Hfrag.
  unfold fragment_of in Hfrag.
  destruct (String.eqb text EmptyString); [done|].
  destruct (Py.startswith "data: " text) eqn:Hstart; [|done].
  destruct (f (event_data text)) as [[|x c']|] eqn:Hf; [done| |done].
  injection Hfrag as <-. split; [done|].
  exists text. split; [apply elem_of_cons; by left|done].
Qed.

Lemma stream_text_fragments_witness :
  "a" <> EmptyString
  /\ exists line, Utf8 line ∈ [Utf8 "data: a"; Utf8 "data: [DONE]"]
       /\ Py.startswith "data: " line = true
       /\ (fun data => Ok data) (event_data line) = Ok "a".
Proof.
  apply (stream_text_fragments (fun data => Ok data)
           [Utf8 "data: a"; Utf8 "data: [DONE]"] "a").
  apply list_elem_of_singleton. reflexivity.
Defined.

(** X9.  A line that decodes and is empty, lacks the marker, or holds
    data that the parser rejects or finds without content, is skipped
    without ending the stream: taking it out changes neither the
    fragments yielded nor the way the run ends, whatever the other
    lines are. *)
Theorem stream_text_skips (f : string -> py string) (pre : list body_line)
    (line : string) (post : list body_line) :
  is_done line = false -> fragment_of f line = None ->
  stream_text f (pre ++ Utf8 line :: post) = stream_text f (pre ++ post).
Proof.
  intros Hdone Hfrag. induction pre as [|l pre IH]; cbn [app].
  - rewrite stream_text_cons. cbn [stops line_fragment]. by rewrite Hdone, Hfrag.
  - rewrite !stream_text_cons, IH. done.
Qed.

Lemma stream_text_skips_witness :
  stream_text (fun _ => Raise ValueError)
      ([Utf8 "data: a"] ++ Utf8 "data: {" :: [Utf8 "data: b"])
    = stream_text (fun _ => Raise ValueError) ([Utf8 "data: a"] ++ [Utf8 "data: b"])
  /\ stream_text (fun data => Ok data)
       ([Utf8 "data: a"] ++ Utf8 ": keep-alive" :: [NotUtf8])
     = stream_text (fun data => Ok data) ([Utf8 "data: a"] ++ [NotUtf8]).
Proof.
  split.
  - apply (stream_text_skips (fun _ => Raise ValueError)); reflexivity.
  - apply (stream_text_skips (fun data => Ok data)); reflexivity.
Defined.

(** ** Document renderer *)

(** What [str.strip] returns never ends in white space. *)
Lemma rstrip_no_trailing_space (s t : string) (c : ascii) :
  Py.isspace c = true -> Py.rstrip s <> t +:+ String c EmptyString.
Proof.
  intros Hc. revert t. induction s as [|a s IH]; intros t; cbn [Py.rstrip].
  - destruct t; discriminate.
  - destruct (Py.rstrip s) as [|b r] eqn:Hr.
    + destruct (Py.isspace a) eqn:Ha; [destruct t; discriminate|].
      destruct t as [|x t]; [intros [= ->]; congruence|].
      intros [= _ H]. destruct t; discriminate.
    + destruct t as [|x t]; [discriminate|].
      change (String x t +:+ String c EmptyString)
        with (String x (t +:+ String c EmptyString)).
      intros [= _ H]. by apply (IH t).
Qed.

Lemma strip_not_marker_alone (raw marker : string) :
  Py.strip raw <> marker +:+ " ".
Proof. apply rstrip_no_trailing_space. reflexivity. Qed.

(** After a marker that ends in a space, a stripped line goes on. *)
Lemma text_after_marker (raw marker : string) :
  Py.startswith (marker +:+ " ") (Py.strip raw) = true ->
  Py.drop (String.length (marker +:+ " ")) (Py.strip raw) <> EmptyString.
Proof.
  intros Hstart Hempty. apply startswith_eq in Hstart.
  rewrite Hempty in Hstart.
  apply (strip_not_marker_alone raw marker). rewrite Hstart at 1.
  clear. induction (marker +:+ " ") as [|c s IH]; [done|].
  change (String c s +:+ EmptyString) with (String c (s +:+ EmptyString)).
  by rewrite IH.
Qed.

Lemma paragraph_of_blank (g raw : string) :
  is_blank raw = true -> paragraph_of g raw = None.
Proof. unfold is_blank, paragraph_of. by intros ->. Qed.

Lemma paragraph_of_one (g raw : string) :
  is_blank raw = false ->
  exists text style, paragraph_of g raw = Some (text, style)
    /\ text <> EmptyString.
Proof.
  unfold is_blank, paragraph_of. intros Hb. rewrite Hb.
  destruct (Py.startswith "# " (Py.strip raw)) eqn:H1.
  { eexists _, _. split; [done|]. apply (text_after_marker raw "#" H1). }
  destruct (Py.startswith "## " (Py.strip raw)) eqn:H2.
  { eexists _, _. split; [done|]. apply (text_after_marker raw "##" H2). }
  destruct (Py.startswith "* " (Py.strip raw) || Py.startswith "- " (Py.strip raw)).
  { eexists _, _. split; [done|]. destruct g; discriminate. }
  eexists _, _. split; [done|].
  intros Hempty. rewrite Hempty in Hb. discriminate.
Qed.

(** What the loop body appends for a line, and when it raises. *)
Lemma pdf_line_cases (g : string) (ok : string -> bool) (raw : string) :
  pdf_line g ok raw
    = if match paragraph_of g raw with
         | Some (text, _) => ok text
         | None => true
         end
      then Ok match paragraph_of g raw with
              | Some (text, style) => [Paragraph text style]
              | None => []
              end
      else Raise ValueError.
Proof.
  unfold pdf_line, paragraph_of, new_paragraph.
  destruct (String.eqb (Py.strip raw) EmptyString); [done|].
  destruct (Py.startswith "# " (Py.strip raw));
    [by destruct (ok (Py.drop 2 (Py.strip raw)))|].
  destruct (Py.startswith "## " (Py.strip raw));
    [by destruct (ok (Py.drop 3 (Py.strip raw)))|].
  destruct (Py.startswith "* " (Py.strip raw) || Py.startswith "- " (Py.strip raw));
    [by destruct (ok (g +:+ " " +:+ Py.drop 2 (Py.strip raw)))|].
  by destruct (ok (Py.strip raw)).
Qed.

(** The renderer returns the title, the spacer and the paragraphs of the
    lines when the parser accepts every text, and raises otherwise. *)
Lemma create_pdf_cases (g : string) (ok : string -> bool)
    (itinerary_text dest : string) :
  create_pdf g ok itinerary_text dest
    = if all_accepted g ok itinerary_text dest
      then Ok ([Paragraph ("Travel Itinerary: " +:+ dest) title_style; Spacer 1 20]
               ++ flat_map (fun raw => match paragraph_of g raw with
                                       | Some (text, style) => [Paragraph text style]
                                       | None => []
                                       end)
                    (Py.split Py.LF itinerary_text))
      else Raise ValueError.
Proof.
  unfold create_pdf, all_accepted, new_paragraph.
  destruct (ok ("Travel Itinerary: " +:+ dest)); [|done].
  cbn [mbind py_bind andb].
  rewrite (for_each_cases _ _ _ ValueError _ (pdf_line_cases g ok)).
  by destruct (forallb _ _).
Qed.




(** X11.  No paragraph of the document is empty: a heading or bullet
    marker is never all there is on a stripped line.  This holds of the
    paragraphs of a document returned and of every paragraph a round of
    the loop appends, whether or not a later round raises. *)
Theorem create_pdf_no_empty_paragraph (g : string) (ok : string -> bool)
    (text : string) (style : paragraph_style) :
  (forall itinerary_text dest elements,
     create_pdf g ok itinerary_text dest = Ok elements ->
     Paragraph text style ∈ elements ->
     text <> EmptyString)
  /\ (forall raw appended,
        pdf_line g ok raw = Ok appended ->
        Paragraph text style ∈ appended ->
        text <> EmptyString).
Proof.
  assert (Hline : forall raw : string,
            In (Paragraph text style)
               match paragraph_of g raw with
               | Some (t, s) => [Paragraph t s]
               | None => []
               end -> text <> EmptyString).
  { intros raw Hin. destruct (is_blank raw) eqn:Hb.
    - by rewrite (paragraph_of_blank _ _ Hb) in Hin.
    - destruct (paragraph_of_one g raw Hb) as (t & s & Heq & Hne).
      rewrite Heq in Hin. destruct Hin as [[= <- _]|[]]. done. }
  split.
  - intros itinerary_text dest elements.
    rewrite create_pdf_cases. destruct (all_accepted _ _ _ _); [|done].
    intros [= <-] [[= -> _]|[Hsp|Hbody]%elem_of_cons]%elem_of_cons.
    + discriminate.
    + discriminate.
    + apply list_elem_of_In, in_flat_map in Hbody as (raw & _ & Hin).
      by apply (Hline raw).
  - intros raw appended. rewrite pdf_line_cases.
    destruct (match paragraph_of g raw with Some (t, _) => ok t | None => true end);
      [|done].
    intros [= <-] Hin%list_elem_of_In. by apply (Hline raw).
Qed.

Lemma create_pdf_no_empty_paragraph_witness :
  create_pdf "*" no_break_tag ("# Rome" +:+ Py.LF +:+ "#  ") "Rome"
    = Ok [ Paragraph "Travel Itinerary: Rome" title_style; Spacer 1 20;
           Paragraph "Rome" title_style; Paragraph "#" body_style ]
  /\ pdf_line "*" no_break_tag "#  " = Ok [Paragraph "#" body_style]
  /\ "Rome" <> EmptyString /\ "#" <> EmptyString.
Proof.
  assert (Hdoc : create_pdf "*" no_break_tag ("# Rome" +:+ Py.LF +:+ "#  ") "Rome"
    = Ok [ Paragraph "Travel Itinerary: Rome" title_style; Spacer 1 20;
           Paragraph "Rome" title_style; Paragraph "#" body_style ])
    by (vm_compute; reflexivity).
  assert (Hline : pdf_line "*" no_break_tag "#  " = Ok [Paragraph "#" body_style])
    by (vm_compute; reflexivity).
  split; [exact Hdoc|]. split; [exact Hline|]. split.
  - apply (proj1 (create_pdf_no_empty_paragraph "*" no_break_tag "Rome" title_style)
             _ _ _ Hdoc).
    rewrite !elem_of_cons. right. right. left. reflexivity.
  - apply (proj2 (create_pdf_no_empty_paragraph "*" no_break_tag "#" body_style)
             _ _ Hline).
    apply list_elem_of_singleton. reflexivity.
Defined.

(** ** One chat turn *)

Lemma contains_inside (word k before after s : string) :
  k = before +:+ word +:+ after ->
  Py.contains k s = true -> Py.contains word s = true.
Proof.
  intros -> (x & y & ->)%contains_inv.
  rewrite (string_app_assoc before), (string_app_assoc word).
  rewrite <- (string_app_assoc x before). apply contains_app.
Qed.

(** A reply that holds one of the day markers holds "day" once
    lowercased. *)
Lemma day_marker_mentions (full_response : string) :
  has_day_marker full_response = true ->
  Py.contains "day" (Py.lower full_response) = true
  /\ mentions_itinerary full_response = true.
Proof.
  intros Hm.
  assert (Hday : Py.contains "day" (Py.lower full_response) = true).
  { unfold has_day_marker, day_markers in Hm. cbn [existsb] in Hm.
    repeat (apply orb_true_iff in Hm as [Hm|Hm]); [| | | |done];
      apply contains_lower in Hm.
    - by apply (contains_inside "day" _ EmptyString " 1:" _ eq_refl) in Hm.
    - by apply (contains_inside "day" _ EmptyString " 1 -" _ eq_refl) in Hm.
    - by apply (contains_inside "day" _ "## " " 1" _ eq_refl) in Hm.
    - by apply (contains_inside "day" _ "# " " 1" _ eq_refl) in Hm. }
  split; [done|]. unfold mentions_itinerary. rewrite Hday. apply orb_true_r.
Qed.

Lemma call_deepseek_response_ok (msgs : list message) (w : world) (r : response) :
  (call_deepseek msgs w).1 = Ok (Some r) -> raises_for_status r = false.
Proof.
  destruct (call_deepseek_trace msgs w)
    as (k & _ & _ & _ & _ & _ & _ & _ & _ & _ & _ & Hres & _).
  rewrite Hres.
  destruct (network w (length (sent w) + (k - 1))) as [r'| |]; cbn; try done.
  destruct (raises_for_status r') eqn:Hs; [done|]. by intros [= <-].
Qed.

Lemma detect_itinerary_cases (r : string) (a : app_state) :
  (detect_itinerary r a = (FromBackend r, a)
   /\ (itinerary_generated (session (surroundings a)) = true
       \/ has_day_marker r = false))
  \/ (itinerary_generated (session (surroundings a)) = false
      /\ has_day_marker r = true
      /\ exists ex, extract_itinerary_data r = Ok ex
         /\ detect_itinerary r a =
              (FromBackend r,
               {| surroundings :=
                    with_session (mark_generated (session (surroundings a)))
                      (surroundings a);
                  full_itinerary_text := r;
                  stored :=
                    if truthy_text (destination ex) || truthy_dict (activities ex)
                    then update (stored a) ex else stored a;
                  generated :=
                    if truthy_text (destination ex) || truthy_dict (activities ex)
                    then true else generated a |})).
Proof.
  unfold detect_itinerary.
  destruct (has_day_marker r) eqn:Hm.
  - destruct (day_marker_mentions r Hm) as [_ ->].
    destruct (itinerary_generated (session (surroundings a))) eqn:Hg; cbn [negb andb].
    + left. split; [done|by left].
    + right. split; [done|]. split; [done|].
      destruct (extract_total r) as [ex Hex]. exists ex. split; [done|].
      rewrite Hex. by destruct (truthy_text _ || truthy_dict _).
  - left. split; [|by right]. by destruct (_ && _).
Qed.

(** The ways a chat turn can go, with the state each leaves. *)
Lemma handle_prompt_cases (f : string -> py string) (p : string) (a : app_state) :
  let w0 := surroundings a in
  let ss1 := append_message (turn_of "user" p) (session w0) in
  let call := call_deepseek (messages ss1) (with_session ss1 w0) in
  (p = EmptyString /\ handle_prompt f p a = (NoPrompt, a))
  \/ (p <> EmptyString /\ exists r,
        r <> EmptyString
        /\ use_cached_response (session w0) = true
        /\ get_cached_response (session w0) p = Some r
        /\ handle_prompt f p a =
             (FromCache r,
              {| surroundings :=
                   with_session
                     (store p r (append_message (turn_of "assistant" r) ss1)) w0;
                 full_itinerary_text := full_itinerary_text a;
                 stored := stored a;
                 generated := generated a |}))
  \/ (p <> EmptyString /\
      match call.1 with
      | Raise e =>
          handle_prompt f p a =
            (Crashed e,
             {| surroundings := call.2;
                full_itinerary_text := full_itinerary_text a;
                stored := stored a;
                generated := generated a |})
      | Ok None =>
          handle_prompt f p a =
            (BackendFailed,
             {| surroundings := with_session (pop_message (session call.2)) call.2;
                full_itinerary_text := full_itinerary_text a;
                stored := stored a;
                generated := generated a |})
      | Ok (Some resp) =>
          raises_for_status resp = false
          /\ match (stream_text f (iter_lines resp)).2 with
             | Some e =>
                 handle_prompt f p a =
                   (Crashed e,
                    {| surroundings := call.2;
                       full_itinerary_text := full_itinerary_text a;
                       stored := stored a;
                       generated := generated a |})
             | None =>
                 let full_response :=
                   String.concat EmptyString (stream_text f (iter_lines resp)).1 in
                 handle_prompt f p a =
                   detect_itinerary full_response
                     {| surroundings :=
                          with_session
                            (store p full_response
                               (append_message (turn_of "assistant" full_response)
                                  (session call.2))) call.2;
                        full_itinerary_text := full_itinerary_text a;
                        stored := stored a;
                        generated := generated a |}
             end
      end).
Proof.
  intros w0 ss1 call. unfold handle_prompt. fold w0. fold ss1.
  destruct (String.eqb_spec p EmptyString) as [->|Hp]; [by left|].
  right.
  assert (Hget : get_cached_response ss1 p = get_cached_response (session w0) p)
    by done.
  destruct (truthy_text _) eqn:Hc.
  - left. split; [done|].
    destruct (use_cached_response ss1) eqn:Hu; [|done].
    rewrite Hget in Hc |- *.
    destruct (get_cached_response (session w0) p) as [[|c r]|] eqn:Hr; try done.
    exists (String c r). done.
  - right. split; [done|]. fold call.
    pose proof (call_deepseek_response_ok (messages ss1) (with_session ss1 w0)) as Hres.
    fold call in Hres.
    destruct call as [[[resp|]|e] w1]; cbn in *; [|done|done].
    split; [by apply Hres|]. by destruct (stream_text f (iter_lines resp)).2.
Qed.

(** X12.  A reply is taken as the itinerary exactly when none was taken
    before and it holds one of the day markers: the test on the words
    "itinerary" and "day" adds nothing, since every marker holds "day".
    The text kept is then the whole reply; otherwise nothing changes. *)
Theorem detection_follows_day_marker (r : string) (a : app_state) :
  (has_day_marker r = true -> mentions_itinerary r = true)
  /\ (detect_itinerary r a).1 = FromBackend r
  /\ (if negb (itinerary_generated (session (surroundings a))) && has_day_marker r
      then itinerary_generated (session (surroundings (detect_itinerary r a).2)) = true
           /\ full_itinerary_text (detect_itinerary r a).2 = r
      else (detect_itinerary r a).2 = a).
Proof.
  split; [intros Hm; by apply day_marker_mentions|].
  destruct (detect_itinerary_cases r a)
    as [[-> [Hg|Hm]]|(Hg & Hm & ex & _ & ->)]; cbn [fst snd].
  - by rewrite Hg.
  - rewrite Hm. by rewrite andb_false_r.
  - by rewrite Hg, Hm.
Qed.

Lemma detection_follows_day_marker_witness :
  has_day_marker paris_text = true /\ mentions_itinerary paris_text = true.
Proof.
  split; [reflexivity|].
  apply (proj1 (detection_follows_day_marker paris_text
                  (initial_app (fun _ => ConnectionError)))).
  reflexivity.
Defined.

Lemma history_after_call (p : string) (w0 : world) :
  let ss1 := append_message (turn_of "user" p) (session w0) in
  messages (session (call_deepseek (messages ss1) (with_session ss1 w0)).2)
    = messages (session w0) ++ [turn_of "user" p].
Proof.
  intros ss1.
  destruct (call_deepseek_trace (messages ss1) (with_session ss1 w0))
    as (k & _ & _ & _ & _ & _ & Hmsgs & _).
  by rewrite Hmsgs.
Qed.

(** X13.  When the backend call ends in a transport failure, the turn
    is undone: the history, the cache, the detection flag and the stored
    itinerary are what they were before the prompt; only the POSTs made
    (between one and three) and the call counter remain. *)
Theorem handle_prompt_failure_rolls_back (f : string -> py string) (p : string)
    (a a' : app_state) :
  handle_prompt f p a = (BackendFailed, a') ->
  messages (session (surroundings a')) = messages (session (surroundings a))
  /\ cached_responses (session (surroundings a'))
       = cached_responses (session (surroundings a))
  /\ itinerary_generated (session (surroundings a'))
       = itinerary_generated (session (surroundings a))
  /\ full_itinerary_text a' = full_itinerary_text a
  /\ stored a' = stored a /\ generated a' = generated a
  /\ exists k : nat, (1 <= k <= 3)%nat
       /\ sent (surroundings a')
            = sent (surroundings a)
              ++ replicate k (request_for
                   (messages (session (surroundings a)) ++ [turn_of "user" p]))
       /\ api_calls (session (surroundings a'))
            = api_calls (session (surroundings a)) + Z.of_nat k.
Proof.
  intros H.
  destruct (handle_prompt_cases f p a) as [[_ H']|[(_ & r & _ & _ & _ & H')|[_ H']]];
    [congruence|congruence|].
  pose proof (history_after_call p (surroundings a)) as Hhist.
  destruct (call_deepseek_trace
              (messages (append_message (turn_of "user" p) (session (surroundings a))))
              (with_session (append_message (turn_of "user" p) (session (surroundings a)))
                 (surroundings a)))
    as (k & Hk & Hsent & Hcalls & _ & _ & _ & Hcache & Hgen & _).
  cbv zeta in Hhist.
  destruct (call_deepseek _ _) as [[[resp|]|e] w1] eqn:Hcall; cbn in *.
  - destruct H' as [_ H'].
    destruct (stream_text f (iter_lines resp)).2; rewrite H' in H; [discriminate|].
    match type of H with detect_itinerary ?x ?y = _ =>
      destruct (detect_itinerary_cases x y) as [[Hd _]|(_ & _ & ex & _ & Hd)] end;
      rewrite Hd in H; discriminate.
  - rewrite H' in H. injection H as <-. cbn.
    rewrite Hhist, removelast_last.
    repeat split; try done. exists k. done.
  - rewrite H' in H. discriminate.
Qed.

Lemma handle_prompt_failure_rolls_back_witness :
  messages (session (surroundings
     (handle_prompt (fun data => Ok data) "Plan Rome"
        (initial_app (fun _ => ConnectionError))).2)) = [].
Proof.
  destruct (handle_prompt_failure_rolls_back (fun data => Ok data) "Plan Rome"
              (initial_app (fun _ => ConnectionError))
              (handle_prompt (fun data => Ok data) "Plan Rome"
                 (initial_app (fun _ => ConnectionError))).2
              eq_refl) as [Hm _].
  exact Hm.
Defined.

(** X14.  A turn answered from the cache makes no POST and touches
    neither the call counter nor the itinerary: the reply is the
    non-empty text the lookup returned, the history grows by the user
    turn and the assistant turn, and the reply is stored under the
    prompt. *)
Theorem handle_prompt_cache_hit (f : string -> py string) (p r : string)
    (a a' : app_state) :
  handle_prompt f p a = (FromCache r, a') ->
  use_cached_response (session (surroundings a)) = true
  /\ get_cached_response (session (surroundings a)) p = Some r
  /\ r <> EmptyString
  /\ messages (session (surroundings a'))
       = messages (session (surroundings a))
         ++ [turn_of "user" p; turn_of "assistant" r]
  /\ get_cached_response (session (surroundings a')) p = Some r
  /\ sent (surroundings a') = sent (surroundings a)
  /\ api_calls (session (surroundings a')) = api_calls (session (surroundings a))
  /\ itinerary_generated (session (surroundings a'))
       = itinerary_generated (session (surroundings a))
  /\ full_itinerary_text a' = full_itinerary_text a
  /\ stored a' = stored a.
Proof.
  intros H.
  destruct (handle_prompt_cases f p a)
    as [[_ H']|[(_ & r' & Hr & Hu & Hget & H')|[_ H']]]; [congruence| |].
  - rewrite H' in H. injection H as -> <-. cbn.
    repeat split; try done.
    + by rewrite <- app_assoc.
    + unfold get_cached_response. cbn. by rewrite lookup_insert_eq.
  - destruct (call_deepseek _ _) as [[[resp|]|e] w1]; cbn in H';
      try (rewrite H' in H; discriminate).
    destruct H' as [_ H'].
    destruct (stream_text f (iter_lines resp)).2; rewrite H' in H; [discriminate|].
    match type of H with detect_itinerary ?x ?y = _ =>
      destruct (detect_itinerary_cases x y) as [[Hd _]|(_ & _ & ex & _ & Hd)] end;
      rewrite Hd in H; discriminate.
Qed.

Lemma handle_prompt_cache_hit_witness :
  let a := caching_app (fun _ => ConnectionError) in
  let a' := (handle_prompt echo "Best time to visit Peru?" a).2 in
  sent (surroundings a') = sent (surroundings a)
  /\ api_calls (session (surroundings a')) = api_calls (session (surroundings a)).
Proof.
  intros a a'.
  assert (E : handle_prompt echo "Best time to visit Peru?" a
              = (FromCache (default EmptyString (snd <$> COMMON_QUERIES !! 2%nat)), a'))
    by (vm_compute; reflexivity).
  destruct (handle_prompt_cache_hit _ _ _ _ _ E)
    as (_ & _ & _ & _ & _ & Hsent & Hcalls & _).
  split; [exact Hsent|exact Hcalls].
Defined.








(** ** Whole sessions *)

(** Ticking the checkbox in the initial session gives [caching_app]. *)
Example caching_app_ticked (f : string -> py string) (net : nat -> post_result) :
  run_script f [UseCached true] (initial_app net) = caching_app net.
Proof. reflexivity. Qed.

(** With the option ticked, a canned question is answered without a
    POST; left as it is, the backend is asked. *)
Example canned_question_with_and_without_option :
  let net := answers ["data: Sure."; "data: [DONE]"] in
  sent (surroundings
          (run_script echo [UseCached true; Enter "Best time to visit Peru?"]
             (initial_app net))) = []
  /\ length (sent (surroundings
          (run_script echo [Enter "Best time to visit Peru?"]
             (initial_app net)))) = 1%nat.
Proof. split; vm_compute; reflexivity. Qed.

Lemma turn_of_not_system (r c : string) :
  r <> "system" -> not_system (turn_of r c).
Proof. intros Hr. unfold not_system, turn_of. cbn. congruence. Qed.

Lemma script_invariant_initial (net : nat -> post_result) :
  script_invariant (initial_app net).
Proof.
  unfold script_invariant. cbn. repeat split; try done.
  - by left.
Qed.

Lemma script_invariant_detect (r : string) (b : app_state) :
  script_invariant b -> script_invariant (detect_itinerary r b).2.
Proof.
  intros Hinv.
  destruct (detect_itinerary_cases r b)
    as [[-> _]|(Hg & Hm & ex & Hex & ->)]; [done|].
  destruct Hinv as (Hsys & Hbefore & _ & _ & _).
  destruct (Hbefore Hg) as (_ & Hacts & Hstart & _).
  unfold script_invariant. cbn. repeat split; try done.
  - destruct (truthy_text _ || truthy_dict _).
    + right. exists ex. done.
    + by left.
  - intros m. destruct (truthy_text _ || truthy_dict _); cbn; by rewrite Hstart.
Qed.

Lemma script_invariant_enter (f : string -> py string) (p : string) (a : app_state) :
  script_invariant a -> script_invariant (handle_prompt f p a).2.
Proof.
  intros Hinv.
  pose proof Hinv as (Hsys & Hbefore & Hafter & Hacts & Hdate).
  assert (Huser : not_system (turn_of "user" p))
    by (by apply turn_of_not_system).
  destruct (handle_prompt_cases f p a)
    as [[_ ->]|[(_ & r & _ & _ & _ & ->)|[_ H']]]; [done| |].
  - unfold script_invariant. cbn. repeat split; try done; try (by apply Hbefore).
    rewrite <- app_assoc. apply Forall_app. split; [done|].
    repeat constructor; [done|]. by apply turn_of_not_system.
  - pose proof (history_after_call p (surroundings a)) as Hhist.
    destruct (call_deepseek_trace
                (messages (append_message (turn_of "user" p) (session (surroundings a))))
                (with_session (append_message (turn_of "user" p) (session (surroundings a)))
                   (surroundings a)))
      as (k & _ & _ & _ & _ & _ & _ & _ & Hgen & _).
    cbv zeta in Hhist.
    destruct (call_deepseek _ _) as [[[resp|]|e] w1]; cbn in H', Hhist, Hgen.
    + destruct H' as [_ H'].
      destruct (stream_text f (iter_lines resp)).2; rewrite H'.
      * unfold script_invariant. cbn. rewrite Hhist, Hgen.
        repeat split; try done; try (by apply Hbefore).
        apply Forall_app. split; [done|]. by repeat constructor.
      * apply script_invariant_detect.
        unfold script_invariant. cbn. rewrite Hhist, Hgen.
        repeat split; try done; try (by apply Hbefore).
        rewrite <- app_assoc. apply Forall_app. split; [done|].
        repeat constructor; [done|]. by apply turn_of_not_system.
    + rewrite H'. unfold script_invariant. cbn.
      rewrite Hhist, removelast_last, Hgen.
      repeat split; try done; try (by apply Hbefore).
    + rewrite H'. unfold script_invariant. cbn. rewrite Hhist, Hgen.
      repeat split; try done; try (by apply Hbefore). apply Forall_app. split; [done|].
      by repeat constructor.
Qed.

Lemma truthy_dict_false (m : gmap Z (list activity)) :
  truthy_dict m = false -> m = ∅.
Proof.
  unfold truthy_dict. intros H. apply negb_false_iff in H.
  by apply bool_decide_eq_true in H.
Qed.

(** What the calendar button leaves of the session: all of it, or all of
    it but the stored itinerary, updated with the extraction of the
    text. *)
Lemma add_to_calendar_state (now : Z) (a : app_state) :
  (add_to_calendar now a).2 = a
  \/ exists ex,
       itinerary_generated (session (surroundings a)) = true
       /\ truthy_dict (activities (extracted (stored a))) = false
       /\ extract_itinerary_data (full_itinerary_text a) = Ok ex
       /\ (add_to_calendar now a).2
          = {| surroundings := surroundings a;
               full_itinerary_text := full_itinerary_text a;
               stored := update (stored a) ex;
               generated := generated a |}.
Proof.
  unfold add_to_calendar, fill_activities.
  destruct (itinerary_generated (session (surroundings a))); [|by left].
  destruct (start_date (stored a)); [|by left].
  destruct (truthy_dict _); [left; by destruct (create_ics now (stored a))|].
  destruct (extract_itinerary_data (full_itinerary_text a)) as [ex|e]; [|by left].
  right. exists ex. cbn [mbind py_bind].
  by destruct (create_ics now _).
Qed.

Lemma script_invariant_perform (f : string -> py string) (x : action) (a : app_state) :
  script_invariant a -> script_invariant (perform f x a).
Proof.
  intros Hinv. destruct x as [ticked|p|picked|now]; cbn [perform].
  - exact Hinv.
  - by apply script_invariant_enter.
  - unfold pick_start_date.
    destruct (itinerary_generated (session (surroundings a))) eqn:Hg; [|done].
    destruct (start_date (stored a)) eqn:Hs; [done|].
    destruct Hinv as (Hsys & Hbefore & Hafter & Hacts & Hdate).
    unfold script_invariant. cbn [surroundings full_itinerary_text stored generated
      start_date extracted].
    split; [done|]. split; [by rewrite Hg|]. split; [done|]. split; [done|].
    intros m [= <-]. by exists picked.
  - destruct (add_to_calendar_state now a) as [->|(ex & Hg & _ & Hex & ->)]; [done|].
    destruct Hinv as (Hsys & Hbefore & Hafter & Hacts & Hdate).
    unfold script_invariant. cbn [snd surroundings full_itinerary_text stored generated
      start_date extracted update activities].
    split; [done|]. split; [by rewrite Hg|]. split; [done|].
    split; [right; by exists ex|]. exact Hdate.
Qed.

Lemma script_invariant_run (f : string -> py string) (script : list action)
    (a : app_state) :
  script_invariant a -> script_invariant (run_script f script a).
Proof.
  revert a. induction script as [|x rest IH]; intros a Hinv; [done|].
  cbn [run_script]. apply IH. by apply script_invariant_perform.
Qed.

Lemma detect_itinerary_keeps (r : string) (b : app_state) :
  sent (surroundings (detect_itinerary r b).2) = sent (surroundings b)
  /\ start_date (stored (detect_itinerary r b).2) = start_date (stored b)
  /\ (itinerary_generated (session (surroundings b)) = true ->
      (detect_itinerary r b).2 = b).
Proof.
  destruct (detect_itinerary_cases r b)
    as [[-> _]|(Hg & Hm & ex & Hex & ->)]; [done|].
  cbn. split; [done|]. split; [|congruence].
  by destruct (truthy_text _ || truthy_dict _).
Qed.

(** What a chat turn leaves of the parts it does not own. *)
Lemma handle_prompt_keeps (f : string -> py string) (p : string) (a : app_state) :
  start_date (stored (handle_prompt f p a).2) = start_date (stored a)
  /\ (itinerary_generated (session (surroundings a)) = true ->
      itinerary_generated (session (surroundings (handle_prompt f p a).2)) = true
      /\ full_itinerary_text (handle_prompt f p a).2 = full_itinerary_text a
      /\ stored (handle_prompt f p a).2 = stored a
      /\ generated (handle_prompt f p a).2 = generated a)
  /\ exists k : nat, (k <= 3)%nat
       /\ sent (surroundings (handle_prompt f p a).2)
            = sent (surroundings a)
              ++ replicate k (request_for
                   (messages (session (surroundings a)) ++ [turn_of "user" p])).
Proof.
  destruct (handle_prompt_cases f p a)
    as [[_ ->]|[(_ & r & _ & _ & _ & ->)|[_ H']]].
  - cbn. repeat split; try done. exists 0%nat. split; [lia|]. cbn.
    by rewrite app_nil_r.
  - cbn. repeat split; try done. exists 0%nat. split; [lia|]. cbn.
    by rewrite app_nil_r.
  - destruct (call_deepseek_trace
                (messages (append_message (turn_of "user" p) (session (surroundings a))))
                (with_session (append_message (turn_of "user" p) (session (surroundings a)))
                   (surroundings a)))
      as (k & Hk & Hsent & _ & _ & _ & _ & _ & Hgen & _).
    destruct (call_deepseek _ _) as [[[resp|]|e] w1]; cbn in H', Hsent, Hgen.
    + destruct H' as [_ H'].
      destruct (stream_text f (iter_lines resp)).2; rewrite H'.
      { cbn. rewrite Hgen. repeat split; try done.
        exists k. split; [lia|done]. }
      match goal with |- context [detect_itinerary ?x ?y] =>
        destruct (detect_itinerary_keeps x y) as (Hs & Hd & Hsame) end.
      cbn in Hs, Hd, Hsame. rewrite Hs, Hd. split; [done|]. split.
      * intros Hg. rewrite Hsame by (by rewrite Hgen). cbn. by rewrite Hgen.
      * exists k. split; [lia|done].
    + rewrite H'. cbn. rewrite Hgen. repeat split; try done.
      exists k. split; [lia|done].
    + rewrite H'. cbn. rewrite Hgen. repeat split; try done.
      exists k. split; [lia|done].
Qed.

(** X16.  In a session started from scratch the history never holds a
    system turn, whatever is entered, whatever the backend does and
    whether or not the cache option is ticked on the way; so
    every request of a turn carries the system instruction followed by
    the last 4 turns of the history with the prompt appended (all of
    them when there are fewer), the prompt being the last, and a turn
    posts at most three such requests. *)
Theorem session_requests (f : string -> py string) (script : list action)
    (net : nat -> post_result) (p : string) :
  let a := run_script f script (initial_app net) in
  let h := messages (session (surroundings a)) ++ [turn_of "user" p] in
  Forall not_system (messages (session (surroundings a)))
  /\ request_messages (request_for h) = system_message :: drop (length h - 4) h
  /\ last (request_messages (request_for h)) = Some (turn_of "user" p)
  /\ exists k : nat, (k <= 3)%nat
       /\ sent (surroundings (handle_prompt f p a).2)
            = sent (surroundings a) ++ replicate k (request_for h).
Proof.
  intros a h.
  destruct (script_invariant_run f script _ (script_invariant_initial net))
    as (Hsys & _).
  fold a in Hsys.
  assert (Hh : Forall not_system h).
  { apply Forall_app. split; [done|].
    repeat constructor. by apply turn_of_not_system. }
  assert (Hreq : request_messages (request_for h)
                 = system_message :: drop (length h - 4) h).
  { cbn. unfold messages_to_send. rewrite relevant_messages_drop. cbn [app].
    by rewrite (filter_keeps_all _ (Forall_drop _ _ _ Hh)). }
  split; [done|]. split; [done|]. split.
  - rewrite Hreq. unfold h at 2.
    rewrite drop_app_le by (unfold h; rewrite length_app; cbn; lia).
    rewrite app_comm_cons. apply last_snoc.
  - destruct (handle_prompt_keeps f p a) as (_ & _ & Hk). exact Hk.
Qed.

(** X17.  Once a reply has been taken as the itinerary, no later action
    replaces it: the detection flag stays set and the text stays the
    same through any further prompts, changes of the cache option, date
    picks and calendar exports. *)
Theorem itinerary_text_frozen (f : string -> py string) (script : list action)
    (a : app_state) :
  itinerary_generated (session (surroundings a)) = true ->
  itinerary_generated (session (surroundings (run_script f script a))) = true
  /\ full_itinerary_text (run_script f script a) = full_itinerary_text a.
Proof.
  revert a. induction script as [|x rest IH]; intros a Hg; [done|].
  cbn [run_script].
  assert (Hstep : itinerary_generated (session (surroundings (perform f x a))) = true
                  /\ full_itinerary_text (perform f x a) = full_itinerary_text a).
  { destruct x as [ticked|p|picked|now]; cbn [perform].
    - done.
    - destruct (handle_prompt_keeps f p a) as (_ & Hkeep & _).
      destruct (Hkeep Hg) as (H1 & H2 & _). done.
    - unfold pick_start_date. rewrite Hg. by destruct (start_date (stored a)).
    - by destruct (add_to_calendar_state now a) as [->|(ex & _ & _ & _ & ->)]. }
  destruct Hstep as [Hg' Ht]. destruct (IH _ Hg') as [H1 H2].
  split; [done|]. by rewrite H2.
Qed.

Lemma itinerary_text_frozen_witness :
  let lines := ["data: ## Day 1: Arrival"; "data: [DONE]"] in
  let a := (handle_prompt echo "Plan Rome" (initial_app (answers lines))).2 in
  full_itinerary_text
      (run_script echo [UseCached true; Enter "More"; PickDate 7; AddToCalendar 0] a)
    = "## Day 1: Arrival".
Proof.
  intros lines a.
  destruct (itinerary_text_frozen echo
              [UseCached true; Enter "More"; PickDate 7; AddToCalendar 0] a)
    as [_ Ht]; [reflexivity|].
  rewrite Ht. reflexivity.
Defined.



Lemma fill_activities_cases (a : app_state) :
  exists a',
    fill_activities a = Ok a'
    /\ surroundings a' = surroundings a
    /\ full_itinerary_text a' = full_itinerary_text a
    /\ start_date (stored a') = start_date (stored a)
    /\ activities (extracted (stored a')) = calendar_days a.
Proof.
  unfold fill_activities, calendar_days.
  destruct (truthy_dict _); [by exists a|].
  destruct (extract_total (full_itinerary_text a)) as [ex ->].
  eexists. by split.
Qed.

(** X19.  The calendar button yields nothing in three cases only: no
    itinerary was taken, no start date is stored, or some event of the
    days it works on (those stored, or those of the text when none are
    stored) lies beyond the limits of the date library, where the
    renderer raises.  In the first two cases it leaves the session as it
    was. *)
Theorem add_to_calendar_some_iff (now : Z) (a : app_state) :
  ((add_to_calendar now a).1 = None <->
   itinerary_generated (session (surroundings a)) = false
   \/ start_date (stored a) = None
   \/ exists start, start_date (stored a) = Some start
        /\ all_in_range start (calendar_days a) = false)
  /\ (itinerary_generated (session (surroundings a)) = false
      \/ start_date (stored a) = None ->
      add_to_calendar now a = (None, a)).
Proof.
  unfold add_to_calendar.
  destruct (itinerary_generated (session (surroundings a)));
    [|split; [|done]; by split; [left|]].
  destruct (start_date (stored a)) as [m|] eqn:Hs;
    [|split; [|done]; split; [right; by left|done]].
  destruct (fill_activities_cases a) as (a' & -> & _ & _ & Hs' & Hdays).
  rewrite create_ics_cases, Hs', Hs, Hdays. cbn [default from_option id].
  destruct (all_in_range m (calendar_days a)) eqn:Hr; cbn [fst].
  - split; [|by intros [|]]. split; [done|].
    intros [|[|(start & [= <-] & Hfalse)]]; congruence.
  - split; [|by intros [|]]. split; [|done].
    intros _. right. right. by exists m.
Qed.

Lemma add_to_calendar_some_iff_witness :
  let quiet := initial_app (fun _ => ConnectionError) in
  let lines := ["data: ## Day 1: Rome"; "data: - 1000000000 AM: Party"; "data: [DONE]"] in
  let a := run_script echo_line [Enter "Plan Rome"; PickDate 739953]
             (initial_app (answers lines)) in
  add_to_calendar sample_now quiet = (None, quiet)
  /\ (add_to_calendar sample_now a).1 = None.
Proof.
  intros quiet lines a. split.
  - apply (proj2 (add_to_calendar_some_iff sample_now quiet)).
    left. reflexivity.
  - apply (proj1 (add_to_calendar_some_iff sample_now a)).
    right. right. exists (OnDate 739953). split; vm_compute; reflexivity.
Defined.

(** The events depend on the start date and the days only. *)
Lemma create_ics_ext (now : Z) (d d' : itinerary_data) :
  start_date d = start_date d' ->
  activities (extracted d) = activities (extracted d') ->
  create_ics now d = create_ics now d'.
Proof. unfold create_ics. by intros -> ->. Qed.

(** X20.  In a session started from scratch, whether or not the cache
    option is ticked on the way, the events of a calendar file are
    always those the renderer returns for the itinerary extracted from
    the kept text, placed from the stored start date, which is a
    calendar date: the stored days, when there are any, are that
    extraction, and otherwise the text is extracted again. *)
Theorem session_calendar_from_text (f : string -> py string) (script : list action)
    (net : nat -> post_result) (now : Z) (events : list event) :
  let a := run_script f script (initial_app net) in
  (add_to_calendar now a).1 = Some events ->
  exists ex start,
    extract_itinerary_data (full_itinerary_text a) = Ok ex
    /\ start_date (stored a) = Some (OnDate start)
    /\ create_ics now {| start_date := Some (OnDate start); extracted := ex |}
       = Ok events.
Proof.
  intros a.
  destruct (script_invariant_run f script _ (script_invariant_initial net))
    as (_ & _ & _ & Hacts & Hdate).
  fold a in Hacts, Hdate. unfold add_to_calendar, fill_activities.
  destruct (itinerary_generated (session (surroundings a))); [|done].
  destruct (start_date (stored a)) as [m|] eqn:Hs; [|done].
  destruct (Hdate m eq_refl) as [start ->].
  destruct (truthy_dict _) eqn:Ht.
  - destruct (create_ics now (stored a)) as [evs|e] eqn:Hics; [|done].
    cbn. intros [= <-].
    destruct Hacts as [Hempty|(ex & Hex & Heq)].
    + unfold truthy_dict in Ht. rewrite Hempty in Ht. by rewrite bool_decide_eq_true_2 in Ht.
    + exists ex, start. split; [done|]. split; [done|].
      rewrite <- Hics. by apply create_ics_ext.
  - destruct (extract_itinerary_data (full_itinerary_text a)) as [ex|e] eqn:Hex;
      [|done].
    cbn [mbind py_bind].
    destruct (create_ics now _) as [evs|e] eqn:Hics; [|done].
    cbn. intros [= <-]. exists ex, start. split; [done|]. split; [done|].
    rewrite <- Hics. by apply create_ics_ext.
Qed.

Lemma session_calendar_from_text_witness :
  let lines := ["data: ## Day 1: Rome"; "data: - 9 AM: Walk"; "data: [DONE]"] in
  let a := run_script echo_line [UseCached true; Enter "Plan Rome"; PickDate 739953]
             (initial_app (answers lines)) in
  exists ex start,
    extract_itinerary_data (full_itinerary_text a) = Ok ex
    /\ start_date (stored a) = Some (OnDate start)
    /\ create_ics sample_now {| start_date := Some (OnDate start); extracted := ex |}
       = Ok [event_at (OnDate 739953) 1 (act "Walk" 9 EmptyString)].
Proof.
  intros lines a.
  apply (session_calendar_from_text echo_line
           [UseCached true; Enter "Plan Rome"; PickDate 739953]
           (answers lines) sample_now).
  vm_compute. reflexivity.
Defined.

(** X21.  A start date, once stored, is never replaced: no prompt,
    change of the cache option, date pick or calendar export changes
    it. *)
Theorem start_date_kept (f : string -> py string) (script : list action)
    (a : app_state) (m : moment) :
  start_date (stored a) = Some m ->
  start_date (stored (run_script f script a)) = Some m.
Proof.
  revert a. induction script as [|x rest IH]; intros a Hs; [done|].
  cbn [run_script]. apply IH.
  destruct x as [ticked|p|picked|now]; cbn [perform].
  - done.
  - destruct (handle_prompt_keeps f p a) as (-> & _). done.
  - unfold pick_start_date.
    destruct (itinerary_generated (session (surroundings a))); [|done].
    by rewrite Hs.
  - by destruct (add_to_calendar_state now a) as [->|(ex & _ & _ & _ & ->)].
Qed.

Lemma start_date_kept_witness :
  let a := run_script echo [Enter "Plan Rome"; PickDate 100]
             (initial_app (answers ["data: ## Day 1: Arrival"; "data: [DONE]"])) in
  start_date (stored (run_script echo
      [PickDate 200; UseCached true; Enter "More"; AddToCalendar 3] a))
    = Some (OnDate 100).
Proof.
  intros a. apply start_date_kept. reflexivity.
Defined.

(** X22.  With a start date that is a calendar date, as the date input
    stores it, an event begins on the date [day - 1] days later, moved
    by one more day for each full 24 hours of the activity's hour: for
    an hour within 0..23 the hour has no effect on the begin.  This
    holds of the events of a calendar returned and of every event a
    round of the loop builds, whether or not a later round raises. *)
Theorem create_ics_date_start (now : Z) (d : itinerary_data) (start : Z) :
  start_date d = Some (OnDate start) ->
  (forall events ev,
     create_ics now d = Ok events ->
     ev ∈ events ->
     exists day acts a,
       activities (extracted d) !! day = Some acts /\ a ∈ acts
       /\ event_name ev = name a
       /\ event_begin ev = OnDate (start + (day - 1) + hour a / 24)
       /\ (0 <= hour a <= 23 -> event_begin ev = OnDate (start + (day - 1))))
  /\ (forall day a ev,
        make_event (OnDate start) day a = Ok ev ->
        event_name ev = name a
        /\ event_begin ev = OnDate (start + (day - 1) + hour a / 24)
        /\ (0 <= hour a <= 23 -> event_begin ev = OnDate (start + (day - 1)))).
Proof.
  intros Hs.
  assert (Hat : forall day a,
            event_name (event_at (OnDate start) day a) = name a
            /\ event_begin (event_at (OnDate start) day a)
               = OnDate (start + (day - 1) + hour a / 24)
            /\ (0 <= hour a <= 23 ->
                event_begin (event_at (OnDate start) day a)
                  = OnDate (start + (day - 1)))).
  { intros day a. cbn [event_at event_name event_begin].
    assert (Hdiv : span (day - 1) (hour a) / micros_per_day
                   = (day - 1) + hour a / 24).
    { unfold span, micros_per_day.
      rewrite Z.div_add_l by done.
      rewrite Z.div_mul_cancel_r by done. done. }
    unfold shift. rewrite Hdiv.
    repeat split; try done; [f_equal; lia|].
    intros Hh. rewrite Z.div_small by lia. f_equal. lia. }
  split.
  - intros events ev Hics Hev.
    apply (create_ics_events _ _ _ _ Hics) in Hev as (day & acts & a & Hl & Ha & ->).
    exists day, acts, a. rewrite Hs. cbn [default from_option id].
    split; [done|]. split; [done|]. apply Hat.
  - intros day a ev. rewrite make_event_cases.
    destruct (event_in_range _ _ _); [|done]. intros [= <-]. apply Hat.
Qed.

Lemma create_ics_date_start_witness :
  let d := {| start_date := Some (OnDate 100);
              extracted := {| destination := None;
                              activities := {[ 2 := [act "Walk" 19 EmptyString] ]} |} |} in
  let ev := event_at (OnDate 100) 2 (act "Walk" 19 EmptyString) in
  create_ics 0 d = Ok [ev]
  /\ exists day acts a,
       activities (extracted d) !! day = Some acts /\ a ∈ acts
       /\ event_name ev = name a
       /\ event_begin ev = OnDate (100 + (day - 1) + hour a / 24)
       /\ (0 <= hour a <= 23 -> event_begin ev = OnDate (100 + (day - 1))).
Proof.
  intros d ev.
  assert (Hics : create_ics 0 d = Ok [ev]) by (vm_compute; reflexivity).
  split; [exact Hics|].
  apply (proj1 (create_ics_date_start 0 d 100 eq_refl) [ev] ev Hics).
  apply list_elem_of_singleton. reflexivity.
Defined.

(** ** More on the extractor *)

Lemma cut_char_app (c : ascii) (a b : string) :
  Py.cut (String c EmptyString) (a +:+ String c EmptyString +:+ b)
    = match Py.cut (String c EmptyString) a with
      | Some (a1, a2) => Some (a1, a2 +:+ String c EmptyString +:+ b)
      | None => Some (a, b)
      end.
Proof.
  induction a as [|x a IH].
  - change (EmptyString +:+ String c EmptyString +:+ b) with (String c b).
    cbn. by rewrite Ascii.eqb_refl.
  - change (String x a +:+ String c EmptyString +:+ b)
      with (String x (a +:+ String c EmptyString +:+ b)).
    cbn [Py.cut Py.startswith]. destruct (Ascii.eqb c x); cbn; [done|].
    rewrite IH. by destruct (Py.cut (String c EmptyString) a) as [[a1 a2]|].
Qed.

Lemma split_upto_app (n N : nat) (a b : string) :
  (String.length a <= n)%nat ->
  (String.length (a +:+ Py.LF +:+ b) <= N)%nat ->
  Py.split_upto N Py.LF (a +:+ Py.LF +:+ b)
    = Py.split_upto n Py.LF a ++ Py.split Py.LF b.
Proof.
  assert (Hlf : Py.LF <> EmptyString) by done.
  revert N a. induction n as [|n IH]; intros N a Hn HN;
    rewrite !length_append in HN; cbn [String.length Py.LF] in HN;
    (destruct N as [|N]; [lia|]); cbn [Py.split_upto]; unfold Py.LF at 1;
    rewrite cut_char_app.
  - destruct a; [|cbn in Hn; lia]. cbn [Py.cut Py.startswith Py.split_upto app].
    f_equal. apply split_upto_enough; [done|cbn in HN; lia|done].
  - fold Py.LF. destruct (Py.cut Py.LF a) as [[a1 a2]|] eqn:Hcut.
    + apply cut_length in Hcut. cbn [String.length Py.LF] in Hcut.
      cbn [app]. f_equal. apply IH; [lia|].
      rewrite !length_append. cbn [String.length Py.LF]. lia.
    + cbn [app]. f_equal. apply split_upto_enough; [done|lia|done].
Qed.

(** The lines of two texts joined by a line feed are the lines of the
    one followed by the lines of the other. *)
Lemma split_lines_app (a b : string) :
  Py.split_lines (a +:+ Py.LF +:+ b) = Py.split_lines a ++ Py.split_lines b.
Proof. unfold Py.split_lines, Py.split at 1 2. by apply split_upto_app. Qed.

Lemma split_lines_one (line : string) :
  Py.contains Py.LF line = false -> Py.split_lines line = [line].
Proof.
  unfold Py.contains, Py.split_lines, Py.split.
  destruct (String.length line); cbn [Py.split_upto]; [done|].
  by destruct (Py.cut Py.LF line).
Qed.

Lemma destination_step_spec (line : string) (d : itinerary) :
  destination_step line d =
    Ok {| destination :=
            match destination_in line with
            | Some dest => Some dest
            | None => destination d
            end;
          activities := activities d |}.
Proof.
  unfold destination_step, destination_in.
  destruct (Py.contains "Itinerary for" line); [|by destruct d].
  destruct (Py.split "Itinerary for" line) as [|p0 [|p1 parts]]; cbn;
    by destruct d.
Qed.

Lemma day_step_destination (line : string) (st : loop_state) :
  destination (data (day_step line st)) = destination (data st).
Proof. by destruct (day_step_cases line st) as [->|(_ & n & _ & ->)]. Qed.

(** One iteration, seen from the destination: the line may set it, and
    an activity appended takes the destination then in force. *)
Lemma process_line_destination (st st' : loop_state) (line : string) :
  process_line st line = Ok st' ->
  destination (data st') =
    match destination_in line with
    | Some dest => Some dest
    | None => destination (data st)
    end
  /\ forall k acts a, activities (data st') !! k = Some acts -> a ∈ acts ->
       (exists acts0, activities (data st) !! k = Some acts0 /\ a ∈ acts0)
       \/ location a = default EmptyString (destination (data st')).
Proof.
  unfold process_line. rewrite destination_step_spec. cbn [mbind py_bind].
  set (d := {| destination := _; activities := activities (data st) |}).
  set (st1 := {| current_day := current_day st; data := d |}).
  pose proof (day_step_destination line st1) as Hdest.
  assert (Hday : forall k acts a,
    activities (data (day_step line st1)) !! k = Some acts -> a ∈ acts ->
    exists acts0, activities (data st) !! k = Some acts0 /\ a ∈ acts0).
  { destruct (day_step_cases line st1) as [->|(_ & n & _ & ->)]; cbn; [eauto|].
    unfold register_day. intros k acts a.
    destruct (activities (data st) !! n) eqn:Hn; [eauto|].
    destruct (decide (n = k)) as [<-|Hne].
    - rewrite lookup_insert_eq. intros [= <-] Hin. by apply elem_of_nil in Hin.
    - rewrite lookup_insert_ne by done. eauto. }
  unfold activity_step.
  destruct (is_bullet line && (0 <? current_day (day_step line st1)));
    [|intros [= <-]; split; [done|]; intros k acts a Hk Ha; left; by eapply Hday].
  destruct (Py.contains ":" _);
    [|intros [= <-]; split; [done|]; intros k acts a Hk Ha; left; by eapply Hday].
  cbn [Py.split_upto].
  destruct (Py.cut ":" _) as [[time_part descr]|]; [|done].
  cbn. intros [= <-]. cbn. split; [done|].
  intros k acts a. unfold append_activity.
  destruct (decide (current_day (day_step line st1) = k)) as [<-|Hne].
  - rewrite lookup_insert_eq. intros [= <-] [Hin|Hin]%elem_of_app.
    + left. destruct (activities (data (day_step line st1)) !! _) as [old|] eqn:Hl;
        [|by apply elem_of_nil in Hin].
      by eapply Hday.
    + apply list_elem_of_singleton in Hin as ->. right. done.
  - rewrite lookup_insert_ne by done. intros Hk Ha. left. by eapply Hday.
Qed.

Lemma last_cons_default {A : Type} (x : A) (l : list A) :
  last (x :: l) = match last l with Some y => Some y | None => Some x end.
Proof.
  destruct l as [|y l]; [done|]. rewrite last_cons_cons.
  destruct (last (y :: l)) eqn:Hl; [done|]. by apply last_None in Hl.
Qed.

Lemma run_lines_destination (lines : list string) (st st' : loop_state) :
  run_lines st lines = Ok st' ->
  destination (data st') =
    match last (omap destination_in lines) with
    | Some dest => Some dest
    | None => destination (data st)
    end.
Proof.
  revert st. induction lines as [|line rest IH]; intros st; cbn [run_lines].
  - by intros [= <-].
  - destruct (process_line st line) as [st1|e] eqn:Hstep; [|done]. cbn.
    intros Hrun. rewrite (IH _ Hrun).
    destruct (process_line_destination _ _ _ Hstep) as [-> _].
    cbn [omap list_omap].
    destruct (destination_in line) as [dest|]; [|done].
    rewrite last_cons_default. by destruct (last (omap destination_in rest)).
Qed.

(** X23.  The destination returned is the one set by the last line that
    holds the phrase "Itinerary for" (the stripped text between the
    first occurrence of the phrase and the next), and it is missing
    when no line holds the phrase. *)
Theorem extract_destination_last_wins (markdown_text : string) :
  exists d, extract_itinerary_data markdown_text = Ok d
    /\ destination d = last (omap destination_in (Py.split_lines markdown_text)).
Proof.
  unfold extract_itinerary_data.
  destruct (run_lines_total (Py.split_lines markdown_text) initial_state)
    as [final Hrun].
  rewrite Hrun. cbn. eexists. split; [done|].
  rewrite (run_lines_destination _ _ _ Hrun). cbn.
  by destruct (last _).
Qed.

Lemma run_lines_location (lines : list string) (st st' : loop_state) (dest : option string) :
  Forall (fun line => destination_in line = None) lines ->
  destination (data st) = dest ->
  (forall k acts a, activities (data st) !! k = Some acts -> a ∈ acts ->
     location a = default EmptyString dest) ->
  run_lines st lines = Ok st' ->
  destination (data st') = dest
  /\ forall k acts a, activities (data st') !! k = Some acts -> a ∈ acts ->
       location a = default EmptyString dest.
Proof.
  intros Hnone. revert st. induction Hnone as [|line rest Hline _ IH];
    intros st Hd Hloc; cbn [run_lines].
  - by intros [= <-].
  - destruct (process_line st line) as [st1|e] eqn:Hstep; [|done]. cbn.
    destruct (process_line_destination _ _ _ Hstep) as [Hd1 Hl1].
    rewrite Hline, Hd in Hd1. apply IH; [done|].
    intros k acts a Hk Ha.
    destruct (Hl1 k acts a Hk Ha) as [(acts0 & Hk0 & Ha0)|Hnew].
    + by eapply Hloc.
    + by rewrite Hnew, Hd1.
Qed.

(** X24.  When no line after the first holds the phrase "Itinerary
    for", every activity returned carries as its location the
    destination set by the first line, or the empty string when the
    first line sets none. *)
Theorem extract_locations (markdown_text first : string) (rest : list string) :
  Py.split_lines markdown_text = first :: rest ->
  Forall (fun line => destination_in line = None) rest ->
  exists d, extract_itinerary_data markdown_text = Ok d
    /\ destination d = destination_in first
    /\ forall k acts a, activities d !! k = Some acts -> a ∈ acts ->
         location a = default EmptyString (destination_in first).
Proof.
  intros Hlines Hrest. unfold extract_itinerary_data. rewrite Hlines.
  destruct (run_lines_total (first :: rest) initial_state) as [final Hrun].
  rewrite Hrun. cbn [mbind py_bind]. eexists. split; [done|].
  cbn [run_lines] in Hrun.
  destruct (process_line initial_state first) as [st1|e] eqn:Hstep; [|done].
  cbn in Hrun.
  destruct (process_line_destination _ _ _ Hstep) as [Hd1 Hl1].
  assert (Hd : destination (data st1) = destination_in first).
  { rewrite Hd1. by destruct (destination_in first). }
  apply (run_lines_location rest st1 final _ Hrest Hd); [|done].
  intros k acts a Hk Ha.
  destruct (Hl1 k acts a Hk Ha) as [(acts0 & Hk0 & _)|Hnew].
  - cbn in Hk0. by rewrite lookup_empty in Hk0.
  - by rewrite Hnew, Hd.
Qed.

Lemma extract_locations_witness :
  exists d, extract_itinerary_data paris_text = Ok d
    /\ destination d = Some "Paris"
    /\ forall k acts a, activities d !! k = Some acts -> a ∈ acts ->
         location a = "Paris".
Proof.
  apply (extract_locations paris_text "Itinerary for Paris"
           [ "## Day 1: Arrival"; "- 9:00 AM: Visit Eiffel Tower";
             "- 7:00 PM: Dinner at Le Jules Verne"; "## Day 2: Exploration";
             "- 10:00 AM: Louvre Museum" ]).
  - reflexivity.
  - repeat constructor.
Defined.

Lemma process_line_inert (st : loop_state) (line : string) :
  inert line = true -> process_line st line = Ok st.
Proof.
  unfold inert. intros H.
  apply andb_true_iff in H as [H Hact]. apply andb_true_iff in H as [Hdest Hday].
  apply negb_true_iff in Hdest, Hday, Hact.
  unfold process_line, destination_step. rewrite Hdest. cbn [mbind py_bind].
  assert (Hst : {| current_day := current_day st; data := data st |} = st)
    by (by destruct st).
  rewrite Hst.
  assert (Hstep : day_step line st = st).
  { unfold day_step. destruct (is_day_heading line); [|done].
    cbn [andb] in Hday. by destruct (day_number line). }
  rewrite Hstep. unfold activity_step.
  destruct (is_bullet line); [|done]. cbn [andb] in Hact |- *.
  rewrite Hact. by destruct (0 <? current_day st).
Qed.

Lemma run_lines_inert (pre post : list string) (line : string) (st : loop_state) :
  inert line = true ->
  run_lines st (pre ++ line :: post) = run_lines st (pre ++ post).
Proof.
  intros H. rewrite !run_lines_app.
  destruct (run_lines st pre) as [st1|e]; [|done]. cbn [mbind py_bind run_lines].
  by rewrite (process_line_inert _ _ H).
Qed.

(** X25.  A line that holds no "Itinerary for", that is no day heading
    with a readable number and no bullet with a colon (prose, a blank
    line, a bullet without colon, a heading without number) does not
    count: the text with such a line between two parts is extracted as
    the text without it. *)
Theorem extract_ignores_inert_line (before line after : string) :
  inert line = true -> Py.contains Py.LF line = false ->
  extract_itinerary_data (before +:+ Py.LF +:+ line +:+ Py.LF +:+ after)
    = extract_itinerary_data (before +:+ Py.LF +:+ after).
Proof.
  intros Hinert Hone. unfold extract_itinerary_data.
  rewrite !split_lines_app, (split_lines_one _ Hone). cbn [app].
  by rewrite (run_lines_inert _ _ _ _ Hinert).
Qed.

Lemma extract_ignores_inert_line_witness :
  extract_itinerary_data
    ("## Day 1: Rome" +:+ Py.LF +:+ "## Day trip notes" +:+ Py.LF +:+ "- 9 AM: Walk")
  = extract_itinerary_data ("## Day 1: Rome" +:+ Py.LF +:+ "- 9 AM: Walk")
  /\ extract_itinerary_data
       ("## Day 1: Rome" +:+ Py.LF +:+ "- bring water" +:+ Py.LF +:+ "- 9 AM: Walk")
     = extract_itinerary_data ("## Day 1: Rome" +:+ Py.LF +:+ "- 9 AM: Walk").
Proof.
  split; apply extract_ignores_inert_line; reflexivity.
Defined.

(** X26.  Every activity returned stems from a bullet line of the text
    and has duration 2; its hour is read from the text before the first
    colon of that line, a text that itself holds no colon: the default
    9, or the integer before AM, or 12 more than the integer before PM,
    with no check of the range. *)
Theorem extract_activity_hours (markdown_text : string) :
  exists d, extract_itinerary_data markdown_text = Ok d /\
    forall k acts a, activities d !! k = Some acts -> a ∈ acts ->
      exists line time_part,
        line ∈ Py.split_lines markdown_text /\ is_bullet line = true
        /\ time_part_of line = Some time_part
        /\ Py.contains ":" time_part = false
        /\ duration a = 2
        /\ (hour a = 9
            \/ (exists n, hour_before "AM" (Py.strip time_part) = Ok n /\ hour a = n)
            \/ (exists n, hour_before "PM" (Py.strip time_part) = Ok n
                          /\ hour a = n + 12)).
Proof.
  destruct (extract_hours_from_time_parts markdown_text) as (d & Hd & Hall).
  exists d. split; [done|]. intros k acts a Hk Ha.
  destruct (Hall k acts a Hk Ha) as (line & tp & Hin & Hb & Htp & Hh & Hdur).
  exists line, tp. repeat split; try done.
  - by apply (time_part_without_colon line).
  - rewrite Hh.
    destruct (hour_of_cases tp) as [->|[(_ & n & Hn & ->)|(_ & _ & n & Hn & ->)]];
      eauto.
Qed.

Lemma extract_activity_hours_witness :
  exists d, extract_itinerary_data (one_day "- 2 PM: Museum") = Ok d
    /\ activities d !! 1 = Some [act "Museum" 14 EmptyString]
    /\ exists line time_part,
         line ∈ Py.split_lines (one_day "- 2 PM: Museum")
         /\ time_part_of line = Some time_part
         /\ Py.contains ":" time_part = false.
Proof.
  destruct (extract_activity_hours (one_day "- 2 PM: Museum")) as (d & Hd & Hall).
  exists d. split; [exact Hd|].
  assert (Hl : activities d !! 1 = Some [act "Museum" 14 EmptyString]).
  { vm_compute in Hd. injection Hd as <-. vm_compute. reflexivity. }
  split; [exact Hl|].
  destruct (Hall 1 _ (act "Museum" 14 EmptyString) Hl)
    as (line & tp & Hin & _ & Htp & Hcolon & _).
  { apply list_elem_of_singleton. reflexivity. }
  exists line, tp. split; [exact Hin|]. split; [exact Htp|exact Hcolon].
Defined.
